(** * Documentation manager: authentication, access guard and document lifecycle

  A shallow embedding of the server side of the repository:

  - [lib/auth.ts] (secret, password and token wrappers, [getAuthUser],
    [requireAuth]),
  - [app/api/documents/route.ts] (list and create),
  - [app/api/documents/[id]/route.ts] (get, update and delete),

  over a model of the two tables that the Prisma client reads and writes.
  The npm packages the code calls (bcryptjs, jsonwebtoken) are not part of the
  repository; they enter as section variables, so every statement below holds
  whatever these packages compute. *)

From stdpp Require Import gmap strings list fin_maps sorting.
From Stdlib Require Import ZArith.

Local Open Scope Z_scope.
Local Open Scope string_scope.

(** ** JavaScript values received in a request body *)

Module Json.

(** The value [await request.json()] resolves to.  A number keeps its
    literal: no schema of the program looks inside it.  A string is its
    sequence of code units, the ones [.length] counts.  An object keeps its
    members in the order of the text. *)
Unset Elimination Schemes.
Inductive json : Type :=
| JNull
| JBool (b : bool)
| JNumber (literal : string)
| JString (s : string)
| JArray (items : list json)
| JObject (members : list (string * json)).
Set Elimination Schemes.

(** Property read [o[k]]: when the text repeats a key, [JSON.parse] keeps the
    last member; [None] is JavaScript's [undefined]. *)
Fixpoint get_prop (k : string) (members : list (string * json)) : option json :=
  match members with
  | [] => None
  | (k', v) :: rest =>
      match get_prop k rest with
      | Some v' => Some v'
      | None => if String.eqb k k' then Some v else None
      end
  end.

End Json.

(** ** The zod combinators the two routes use *)

Module Zod.
Import Json.

Inductive ZodIssueCode : Type :=
| invalid_type
| too_small
| too_big
| invalid_enum_value.

(** One entry of [result.error.errors]; [message] is the text the schema
    supplies, when it supplies one. *)
Record ZodIssue : Type := mkIssue {
  path : list string;
  code : ZodIssueCode;
  message : option string
}.

(** What parsing one value yields: the issues found, or the parsed value. *)
Definition parsed (A : Type) : Type := (list (ZodIssueCode * option string) + A)%type.

Inductive StringCheck : Type :=
| check_min (n : nat) (msg : string)
| check_max (n : nat) (msg : string).

Definition run_check (s : string) (c : StringCheck) : list (ZodIssueCode * option string) :=
  match c with
  | check_min n msg => if (String.length s <? n)%nat then [(too_small, Some msg)] else []
  | check_max n msg => if (n <? String.length s)%nat then [(too_big, Some msg)] else []
  end.

(** [z.string()] followed by its [.min]/[.max] checks: the input has to be a
    string ([undefined], [null] and every other type are issues), and every
    check is run on it. *)
Definition z_string (checks : list StringCheck) (v : option json) : parsed string :=
  match v with
  | Some (JString s) =>
      match concat (map (run_check s) checks) with
      | [] => inr s
      | issues => inl issues
      end
  | _ => inl [(invalid_type, None)]
  end.

(** [z.enum([...])]: a string that is one of the listed literals. *)
Definition z_enum (values : list string) (v : option json) : parsed string :=
  match v with
  | Some (JString s) =>
      if existsb (String.eqb s) values then inr s
      else inl [(invalid_enum_value, None)]
  | _ => inl [(invalid_type, None)]
  end.

(** [.optional()]: [undefined] (here: the key is absent) is accepted and
    stays [undefined]; anything else goes through the inner schema. *)
Definition optional {A : Type} (inner : option json -> parsed A) (v : option json)
  : parsed (option A) :=
  match v with
  | None => inr None
  | Some _ =>
      match inner v with
      | inl issues => inl issues
      | inr a => inr (Some a)
      end
  end.

(** The issues of the member [key] of an object schema. *)
Definition issues_at {A : Type} (key : string) (r : parsed A) : list ZodIssue :=
  match r with
  | inl issues => map (fun i => mkIssue [key] (fst i) (snd i)) issues
  | inr _ => []
  end.

(** The value a [safeParse] returns: [success: false] with the issues, or
    [success: true] with the data. *)
Definition SafeParseReturn (A : Type) : Type := (list ZodIssue + A)%type.

Definition success {A : Type} (r : SafeParseReturn A) : bool :=
  match r with inl _ => false | inr _ => true end.

End Zod.

(** ** The two tables behind the Prisma client *)

Module Prisma.

(** A row of [users]; the primary key [id] is the key of the table. *)
Record UserRow : Type := mkUserRow {
  user_name : string;
  user_email : string;
  user_password : string;
  user_role : string;
  user_createdAt : Z;
  user_updatedAt : Z
}.

(** A row of [documents]; the primary key [id] is the key of the table.
    [status] and [priority] are [TEXT] columns. *)
Record DocumentRow : Type := mkDocumentRow {
  title : string;
  content : string;
  status : string;
  priority : string;
  createdAt : Z;
  updatedAt : Z;
  authorId : Z
}.

Record Db : Type := mkDb {
  users : gmap Z UserRow;
  documents : gmap string DocumentRow
}.

(** [select: { id: true, name: true, email: true, role: true }] on a user. *)
Record SelectedUser : Type := mkSelectedUser {
  id : Z;
  name : string;
  email : string;
  role : string
}.

Definition select_user (key : Z) (u : UserRow) : SelectedUser :=
  {| id := key; name := user_name u; email := user_email u; role := user_role u |}.

(** [prisma.user.findUnique({ where: { id }, select: ... })]. *)
Definition user_findUnique (db : Db) (key : Z) : option SelectedUser :=
  select_user key <$> users db !! key.

(** A document as the client returns it with [include: { author: ... }].
    The foreign key makes [author] present for every stored row. *)
Record Document : Type := mkDocument {
  doc_id : string;
  doc_row : DocumentRow;
  doc_author : option SelectedUser
}.

Definition with_author (db : Db) (key : string) (d : DocumentRow) : Document :=
  {| doc_id := key; doc_row := d; doc_author := user_findUnique db (authorId d) |}.

(** [prisma.document.findUnique({ where: { id } })]. *)
Definition document_findUnique (db : Db) (key : string) : option DocumentRow :=
  documents db !! key.

(** The [data] of a create. *)
Record CreateInput : Type := mkCreateInput {
  create_title : string;
  create_content : string;
  create_status : string;
  create_priority : string;
  create_authorId : Z
}.

(** The [data] of an update: the members that are [undefined] are left alone. *)
Record UpdateInput : Type := mkUpdateInput {
  update_title : option string;
  update_content : option string;
  update_status : option string;
  update_priority : option string
}.

(** Modelled from the spec: the Prisma schema ([prisma/schema.prisma]) is not
    among the sources; the migration and the routes show its columns.  The
    spec's data model gives a document an [id] assigned at creation,
    [createdAt] set once and [updatedAt] refreshed on every mutation.
    [fresh] is the identifier the client generates and [now] the clock it
    reads.  The call throws (here: [None]) when the primary key is taken or
    the author is not a row of [users]. *)
Definition document_create (now : Z) (fresh : string) (db : Db) (data : CreateInput)
  : option (DocumentRow * Db) :=
  match documents db !! fresh, users db !! create_authorId data with
  | None, Some _ =>
      let row := {| title := create_title data;
                    content := create_content data;
                    status := create_status data;
                    priority := create_priority data;
                    createdAt := now;
                    updatedAt := now;
                    authorId := create_authorId data |} in
      Some (row, {| users := users db; documents := <[fresh := row]> (documents db) |})
  | _, _ => None
  end.

(** [data] has no member: the patch gave none of the four fields. *)
Definition update_is_empty (data : UpdateInput) : bool :=
  match update_title data, update_content data, update_status data, update_priority data with
  | None, None, None, None => true
  | _, _, _, _ => false
  end.

(** Modelled from the spec: the Prisma schema is not among the sources; the
    spec has [updatedAt] refreshed by a mutation, which the client does by
    writing the clock reading [now] along with the members of [data] that are
    present.  A [data] without any member gives the client nothing to write:
    the row, [updatedAt] included, stays as it is and is returned.  The call
    throws (here: [None]) when no row has the key. *)
Definition document_update (now : Z) (db : Db) (key : string) (data : UpdateInput)
  : option (DocumentRow * Db) :=
  match documents db !! key with
  | None => None
  | Some old =>
      if update_is_empty data then Some (old, db)
      else
        let row := {| title := default (title old) (update_title data);
                      content := default (content old) (update_content data);
                      status := default (status old) (update_status data);
                      priority := default (priority old) (update_priority data);
                      createdAt := createdAt old;
                      updatedAt := now;
                      authorId := authorId old |} in
        Some (row, {| users := users db; documents := <[key := row]> (documents db) |})
  end.

(** [prisma.document.delete({ where: { id } })]: throws (here: [None]) when no
    row has the key. *)
Definition document_delete (db : Db) (key : string) : option Db :=
  match documents db !! key with
  | None => None
  | Some _ => Some {| users := users db; documents := delete key (documents db) |}
  end.

(** The [where] of the list route: each member that is set is an equality
    test on its column. *)
Record WhereInput : Type := mkWhereInput {
  where_status : option string;
  where_priority : option string
}.

Definition matches (w : WhereInput) (d : DocumentRow) : bool :=
  match where_status w with Some s => String.eqb (status d) s | None => true end
  && match where_priority w with Some p => String.eqb (priority d) p | None => true end.

(** [orderBy: { createdAt: 'desc' }]. *)
Definition newer_first (a b : string * DocumentRow) : Prop :=
  createdAt (snd b) <= createdAt (snd a).

#[global] Instance newer_first_dec a b : Decision (newer_first a b).
Proof. unfold newer_first. apply _. Defined.

(** [prisma.document.findMany({ where, include, orderBy })]. *)
Definition document_findMany (db : Db) (w : WhereInput) : list Document :=
  map (fun kd => with_author db (fst kd) (snd kd))
      (merge_sort newer_first
         (filter (fun kd => matches w (snd kd) = true) (map_to_list (documents db)))).

End Prisma.

(** ** Requests and responses *)

Module Next.

(** What the handlers read of a [NextRequest]: the cookies, the body as
    [request.json()] resolves it ([None] when it rejects, the text not being
    JSON), and the query string of [request.url]. *)
Record NextRequest : Type := mkRequest {
  cookies : gmap string string;
  body : option Json.json;
  searchParams : list (string * string)
}.

(** [searchParams.get(name)]: the first value of the name, or [null]. *)
Fixpoint searchParams_get (name : string) (q : list (string * string)) : option string :=
  match q with
  | [] => None
  | (k, v) :: rest => if String.eqb k name then Some v else searchParams_get name rest
  end.

(** The payloads the document routes answer with. *)
Inductive ResponseBody : Type :=
| ErrorBody (error : string)
| InvalidInputBody (error : string) (details : list Zod.ZodIssue)
| DocumentBody (document : Prisma.Document)
| DocumentsBody (documents : list Prisma.Document)
| MessageBody (message : string).

(** [NextResponse.json(payload, { status })]; the status is 200 when the
    second argument is left out. *)
Record NextResponse : Type := mkResponse {
  payload : ResponseBody;
  status : Z
}.

Definition NextResponse_json (b : ResponseBody) (st : option Z) : NextResponse :=
  {| payload := b; status := default 200 st |}.

(** JavaScript truthiness of a string or [null]/[undefined]: only a non-empty
    string is truthy. *)
Definition truthy (s : option string) : bool :=
  match s with
  | Some s => negb (String.eqb s "")
  | None => false
  end.

End Next.

(** ** lib/auth.ts *)

Module auth.
Import Next.

Record JWTPayload : Type := mkPayload {
  userId : Z;
  email : string;
  role : string
}.

(** The errors [jwt.verify] throws. *)
Inductive VerifyErrors : Type :=
| JsonWebTokenError
| TokenExpiredError
| NotBeforeError.

Section lib_auth.

(** bcryptjs: [hash(password, rounds)] draws a salt, the third argument here;
    [compare(password, hash)]. *)
Context (bcrypt_hash : string -> Z -> string -> string)
        (bcrypt_compare : string -> string -> bool).

(** jsonwebtoken: [sign(payload, secret, { expiresIn })] and
    [verify(token, secret)], each at a reading of the clock; [verify] returns
    the decoded payload or throws. *)
Context (jwt_sign : JWTPayload -> string -> string -> Z -> string)
        (jwt_verify : string -> string -> Z -> VerifyErrors + JWTPayload).

(** [process.env.JWT_SECRET]. *)
Context (process_env_JWT_SECRET : option string).

(** [process.env.JWT_SECRET || 'fallback-secret-key']: an unset or empty
    variable is falsy. *)
Definition JWT_SECRET : string :=
  match process_env_JWT_SECRET with
  | Some s => if truthy (Some s) then s else "fallback-secret-key"
  | None => "fallback-secret-key"
  end.

Definition hashPassword (password : string) (salt : string) : string :=
  bcrypt_hash password 12 salt.

Definition verifyPassword (password hashedPassword : string) : bool :=
  bcrypt_compare password hashedPassword.

Definition signToken (payload : JWTPayload) (now : Z) : string :=
  jwt_sign payload JWT_SECRET "7d" now.

(** [try { return jwt.verify(...) } catch { return null }]. *)
Definition verifyToken (token : string) (now : Z) : option JWTPayload :=
  match jwt_verify token JWT_SECRET now with
  | inr payload => Some payload
  | inl _ => None
  end.

Definition getAuthUser (now : Z) (db : Prisma.Db) (request : NextRequest)
  : option Prisma.SelectedUser :=
  let token := cookies request !! "auth-token" in
  if negb (truthy token) then None
  else
    match token with
    | None => None
    | Some token =>
        match verifyToken token now with
        | None => None
        | Some payload => Prisma.user_findUnique db (userId payload)
        end
    end.

(** What the guard resolves to: [{ error, status }] or [{ user }]. *)
Inductive Guard : Type :=
| Denied (error : string) (status : Z)
| Allowed (user : Prisma.SelectedUser).

(** [roles.includes(r)]. *)
Definition includes (roles : list string) (r : string) : bool :=
  existsb (String.eqb r) roles.

(** [requireAuth(roles?)(request)].  In [roles && ...] an array is truthy
    whatever its length; only a missing argument is falsy. *)
Definition requireAuth (roles : option (list string)) (now : Z) (db : Prisma.Db)
    (request : NextRequest) : Guard :=
  match getAuthUser now db request with
  | None => Denied "Unauthorized" 401
  | Some user =>
      match roles with
      | Some roles =>
          if negb (includes roles (Prisma.role user)) then Denied "Forbidden" 403
          else Allowed user
      | None => Allowed user
      end
  end.

End lib_auth.

End auth.

(** ** app/api/documents/route.ts *)

Module documents_route.
Import Json Zod Next.

(** The data a successful parse of the create schema yields; the keys of the
    body that the schema does not list are dropped. *)
Record CreateData : Type := mkCreateData {
  title : string;
  content : string;
  status : option string;
  priority : option string
}.

Definition createDocumentSchema (input : Json.json) : SafeParseReturn CreateData :=
  match input with
  | JObject o =>
      let t := z_string [check_min 1 "Title is required"; check_max 200 "Title too long"]
                 (get_prop "title" o) in
      let c := z_string [check_min 1 "Content is required"] (get_prop "content" o) in
      let s := optional (z_enum ["TODO"; "IN_PROGRESS"; "DONE"]) (get_prop "status" o) in
      let p := optional (z_enum ["LOW"; "MEDIUM"; "HIGH"; "URGENT"]) (get_prop "priority" o) in
      match t, c, s, p with
      | inr t', inr c', inr s', inr p' =>
          inr {| title := t'; content := c'; status := s'; priority := p' |}
      | _, _, _, _ =>
          inl (issues_at "title" t ++ issues_at "content" c
               ++ issues_at "status" s ++ issues_at "priority" p)%list
      end
  | _ => inl [mkIssue [] invalid_type None]
  end.

Section handlers.

Context (jwt_verify : string -> string -> Z -> auth.VerifyErrors + auth.JWTPayload)
        (process_env_JWT_SECRET : option string).

Definition GET (now : Z) (db : Prisma.Db) (request : NextRequest) : NextResponse :=
  match auth.getAuthUser jwt_verify process_env_JWT_SECRET now db request with
  | None => NextResponse_json (ErrorBody "Unauthorized") (Some 401)
  | Some user =>
      let status := searchParams_get "status" (searchParams request) in
      let priority := searchParams_get "priority" (searchParams request) in
      let where_ :=
        {| Prisma.where_status := if truthy status then status else None;
           Prisma.where_priority := if truthy priority then priority else None |} in
      NextResponse_json (DocumentsBody (Prisma.document_findMany db where_)) None
  end.

(** [fresh] is the identifier the client generates for the new row.  The
    [catch] of the handler turns a rejected [request.json()] and a throwing
    [create] into the 500 answer. *)
Definition POST (now : Z) (fresh : string) (db : Prisma.Db) (request : NextRequest)
  : NextResponse * Prisma.Db :=
  match auth.getAuthUser jwt_verify process_env_JWT_SECRET now db request with
  | None => (NextResponse_json (ErrorBody "Unauthorized") (Some 401), db)
  | Some user =>
      match body request with
      | None => (NextResponse_json (ErrorBody "Failed to create document") (Some 500), db)
      | Some body =>
          match createDocumentSchema body with
          | inl errors =>
              (NextResponse_json (InvalidInputBody "Invalid input" errors) (Some 400), db)
          | inr data =>
              let status := default "TODO" (status data) in
              let priority := default "MEDIUM" (priority data) in
              match Prisma.document_create now fresh db
                      {| Prisma.create_title := title data;
                         Prisma.create_content := content data;
                         Prisma.create_status := status;
                         Prisma.create_priority := priority;
                         Prisma.create_authorId := Prisma.id user |} with
              | Some (document, db') =>
                  (NextResponse_json (DocumentBody (Prisma.with_author db' fresh document))
                     (Some 201), db')
              | None =>
                  (NextResponse_json (ErrorBody "Failed to create document") (Some 500), db)
              end
          end
      end
  end.

End handlers.

End documents_route.

(** ** app/api/documents/[id]/route.ts *)

Module document_route.
Import Json Zod Next.

Definition updateDocumentSchema (input : Json.json) : SafeParseReturn Prisma.UpdateInput :=
  match input with
  | JObject o =>
      let t := optional (z_string [check_min 1 "Title is required";
                                   check_max 200 "Title too long"])
                 (get_prop "title" o) in
      let c := optional (z_string [check_min 1 "Content is required"])
                 (get_prop "content" o) in
      let s := optional (z_enum ["TODO"; "IN_PROGRESS"; "DONE"]) (get_prop "status" o) in
      let p := optional (z_enum ["LOW"; "MEDIUM"; "HIGH"; "URGENT"]) (get_prop "priority" o) in
      match t, c, s, p with
      | inr t', inr c', inr s', inr p' =>
          inr {| Prisma.update_title := t'; Prisma.update_content := c';
                 Prisma.update_status := s'; Prisma.update_priority := p' |}
      | _, _, _, _ =>
          inl (issues_at "title" t ++ issues_at "content" c
               ++ issues_at "status" s ++ issues_at "priority" p)%list
      end
  | _ => inl [mkIssue [] invalid_type None]
  end.

Section handlers.

Context (jwt_verify : string -> string -> Z -> auth.VerifyErrors + auth.JWTPayload)
        (process_env_JWT_SECRET : option string).

(** The test both mutating handlers make before they write:
    [existingDocument.authorId !== user.id && user.role !== 'ADMIN']. *)
Definition not_author_nor_admin (existingDocument : Prisma.DocumentRow)
    (user : Prisma.SelectedUser) : bool :=
  negb (Z.eqb (Prisma.authorId existingDocument) (Prisma.id user))
  && negb (String.eqb (Prisma.role user) "ADMIN").

Definition GET (now : Z) (db : Prisma.Db) (request : NextRequest) (params_id : string)
  : NextResponse :=
  match auth.getAuthUser jwt_verify process_env_JWT_SECRET now db request with
  | None => NextResponse_json (ErrorBody "Unauthorized") (Some 401)
  | Some user =>
      match Prisma.document_findUnique db params_id with
      | None => NextResponse_json (ErrorBody "Document not found") (Some 404)
      | Some document =>
          NextResponse_json (DocumentBody (Prisma.with_author db params_id document)) None
      end
  end.

Definition PUT (now : Z) (db : Prisma.Db) (request : NextRequest) (params_id : string)
  : NextResponse * Prisma.Db :=
  match auth.getAuthUser jwt_verify process_env_JWT_SECRET now db request with
  | None => (NextResponse_json (ErrorBody "Unauthorized") (Some 401), db)
  | Some user =>
      match body request with
      | None => (NextResponse_json (ErrorBody "Failed to update document") (Some 500), db)
      | Some body =>
          match updateDocumentSchema body with
          | inl errors =>
              (NextResponse_json (InvalidInputBody "Invalid input" errors) (Some 400), db)
          | inr data =>
              match Prisma.document_findUnique db params_id with
              | None => (NextResponse_json (ErrorBody "Document not found") (Some 404), db)
              | Some existingDocument =>
                  if not_author_nor_admin existingDocument user
                  then
                    (NextResponse_json
                       (ErrorBody "Forbidden: You can only edit your own documents")
                       (Some 403), db)
                  else
                    match Prisma.document_update now db params_id data with
                    | Some (updatedDocument, db') =>
                        (NextResponse_json
                           (DocumentBody (Prisma.with_author db' params_id updatedDocument))
                           None, db')
                    | None =>
                        (NextResponse_json (ErrorBody "Failed to update document")
                           (Some 500), db)
                    end
              end
          end
      end
  end.

Definition DELETE (now : Z) (db : Prisma.Db) (request : NextRequest) (params_id : string)
  : NextResponse * Prisma.Db :=
  match auth.getAuthUser jwt_verify process_env_JWT_SECRET now db request with
  | None => (NextResponse_json (ErrorBody "Unauthorized") (Some 401), db)
  | Some user =>
      match Prisma.document_findUnique db params_id with
      | None => (NextResponse_json (ErrorBody "Document not found") (Some 404), db)
      | Some existingDocument =>
          if not_author_nor_admin existingDocument user
          then
            (NextResponse_json
               (ErrorBody "Forbidden: You can only delete your own documents")
               (Some 403), db)
          else
            match Prisma.document_delete db params_id with
            | Some db' =>
                (NextResponse_json (MessageBody "Document deleted successfully") None, db')
            | None =>
                (NextResponse_json (ErrorBody "Failed to delete document") (Some 500), db)
            end
      end
  end.

End handlers.

End document_route.

(** ** The rules of the document lifecycle, as the specification words them *)

Module lifecycle.
Import Json.

Definition statuses : list string := ["TODO"; "IN_PROGRESS"; "DONE"].
Definition priorities : list string := ["LOW"; "MEDIUM"; "HIGH"; "URGENT"].

(** A title is a non-empty string of at most 200 characters. *)
Definition valid_title (v : json) : Prop :=
  exists s, v = JString s /\ (1 <= String.length s <= 200)%nat.

(** A content is a non-empty string. *)
Definition valid_content (v : json) : Prop :=
  exists s, v = JString s /\ (1 <= String.length s)%nat.

(** A status or a priority is a member of its closed enumeration. *)
Definition in_enum (values : list string) (v : json) : Prop :=
  exists s, v = JString s /\ s ∈ values.

(** A create body: an object with a valid title and a valid content, whose
    status and priority, when given, are in their enumerations. *)
Definition valid_create_body (b : json) : Prop :=
  exists o, b = JObject o
    /\ (exists v, get_prop "title" o = Some v /\ valid_title v)
    /\ (exists v, get_prop "content" o = Some v /\ valid_content v)
    /\ (forall v, get_prop "status" o = Some v -> in_enum statuses v)
    /\ (forall v, get_prop "priority" o = Some v -> in_enum priorities v).

(** An update patch: an object each of whose four fields, when given, is valid
    the same way as in a create. *)
Definition valid_patch_body (b : json) : Prop :=
  exists o, b = JObject o
    /\ (forall v, get_prop "title" o = Some v -> valid_title v)
    /\ (forall v, get_prop "content" o = Some v -> valid_content v)
    /\ (forall v, get_prop "status" o = Some v -> in_enum statuses v)
    /\ (forall v, get_prop "priority" o = Some v -> in_enum priorities v).

(** The ownership rule: the requester is the author or an administrator. *)
Definition author_or_admin (d : Prisma.DocumentRow) (u : Prisma.SelectedUser) : Prop :=
  Prisma.authorId d = Prisma.id u \/ Prisma.role u = "ADMIN".

(** The store holds only statuses and priorities of the enumerations. *)
Definition enumerated (db : Prisma.Db) : Prop :=
  forall i d, Prisma.documents db !! i = Some d ->
    Prisma.status d ∈ statuses /\ Prisma.priority d ∈ priorities.

End lifecycle.

(** ** A small deployment used to run the handlers on concrete requests *)

Module sample.
Import Json Next.

(** Three session tokens, accepted under any secret and at any time, and
    nothing else. *)
Definition jwt_verify (token secret : string) (now : Z)
  : auth.VerifyErrors + auth.JWTPayload :=
  if String.eqb token "token-of-ana" then inr (auth.mkPayload 1 "ana@localhost" "USER")
  else if String.eqb token "token-of-beto" then inr (auth.mkPayload 2 "beto@localhost" "USER")
  else if String.eqb token "token-of-admin" then inr (auth.mkPayload 3 "admin@localhost" "ADMIN")
  else inl auth.JsonWebTokenError.

Definition env : option string := Some "configured-secret".

Definition ana : Prisma.SelectedUser := Prisma.mkSelectedUser 1 "Ana" "ana@localhost" "USER".
Definition beto : Prisma.SelectedUser := Prisma.mkSelectedUser 2 "Beto" "beto@localhost" "USER".
Definition admin : Prisma.SelectedUser :=
  Prisma.mkSelectedUser 3 "System Administrator" "admin@localhost" "ADMIN".

(** The checklist of the seed, written by Ana at time 1000. *)
Definition checklist : Prisma.DocumentRow :=
  Prisma.mkDocumentRow "Server Maintenance Checklist" "Weekly server maintenance tasks"
    "TODO" "HIGH" 1000 1000 1.

Definition db : Prisma.Db :=
  {| Prisma.users :=
       <[1 := Prisma.mkUserRow "Ana" "ana@localhost" "$2a$12$ana" "USER" 10 10]>
       (<[2 := Prisma.mkUserRow "Beto" "beto@localhost" "$2a$12$beto" "USER" 20 20]>
       (<[3 := Prisma.mkUserRow "System Administrator" "admin@localhost" "$2a$12$admin"
                "ADMIN" 0 0]> ∅));
     Prisma.documents := <["doc-1" := checklist]> ∅ |}.

Definition request (token : string) (b : option Json.json) (q : list (string * string))
  : NextRequest :=
  {| cookies := <["auth-token" := token]> ∅; body := b; searchParams := q |}.

(** Bodies sent by the requests below. *)
Definition empty_title_patch : Json.json := JObject [("title", JString "")].

Definition start_patch : Json.json := JObject [("status", JString "IN_PROGRESS")].

Definition guide_body : Json.json :=
  JObject [("title", JString "Network Configuration Guide");
           ("content", JString "Network setup documentation")].

Definition backup_body_unknown_status : Json.json :=
  JObject [("title", JString "Backup Procedures");
           ("content", JString "Daily backup procedures completed");
           ("status", JString "BOGUS")].

End sample.

(** ** app/dashboard/page.tsx: the board *)

Module dashboard.
Import Json.

(** The page keeps the documents as the routes sent them. *)
Definition doc_status (doc : Prisma.Document) : string :=
  Prisma.status (Prisma.doc_row doc).

(** The three columns: [documents.filter(doc => doc.status === ...)]. *)
Definition todoDocuments (documents : list Prisma.Document) : list Prisma.Document :=
  List.filter (fun doc => String.eqb (doc_status doc) "TODO") documents.

Definition inProgressDocuments (documents : list Prisma.Document) : list Prisma.Document :=
  List.filter (fun doc => String.eqb (doc_status doc) "IN_PROGRESS") documents.

Definition doneDocuments (documents : list Prisma.Document) : list Prisma.Document :=
  List.filter (fun doc => String.eqb (doc_status doc) "DONE") documents.

(** The buttons of a card, by the column it is shown in: the label and the
    status its click asks for. *)
Definition buttons (status : string) : list (string * string) :=
  if String.eqb status "TODO" then [("Start", "IN_PROGRESS")]
  else if String.eqb status "IN_PROGRESS" then [("Back", "TODO"); ("Done", "DONE")]
  else if String.eqb status "DONE" then [("Reopen", "IN_PROGRESS")]
  else [].

(** The body of the PUT a click sends: [JSON.stringify({ status: newStatus })]. *)
Definition status_patch (newStatus : string) : json :=
  JObject [("status", JString newStatus)].


(** What [updateDocumentStatus] stores when the answer is ok:
    [documents.map(doc => doc.id === id ? updatedDocument : doc)]. *)
Definition replaceDocument (id : string) (updatedDocument : Prisma.Document)
    (documents : list Prisma.Document) : list Prisma.Document :=
  map (fun doc => if String.eqb (Prisma.doc_id doc) id then updatedDocument else doc)
    documents.

End dashboard.

(** ** Relations between the two tables *)

Module integrity.

(** The foreign key of [documents]: every author is a row of [users]. *)
Definition authored (db : Prisma.Db) : Prop :=
  forall i d, Prisma.documents db !! i = Some d ->
    is_Some (Prisma.users db !! Prisma.authorId d).

(** The filters the list route builds from a query. *)
Definition query_where (q : list (string * string)) : Prisma.WhereInput :=
  {| Prisma.where_status :=
       if Next.truthy (Next.searchParams_get "status" q)
       then Next.searchParams_get "status" q else None;
     Prisma.where_priority :=
       if Next.truthy (Next.searchParams_get "priority" q)
       then Next.searchParams_get "priority" q else None |}.

End integrity.

(** * Properties *)

(** ** What the schemas accept *)

Section schema_facts.
Import Json Zod lifecycle.

Lemma existsb_eqb_elem_of (s : string) (values : list string) :
  existsb (String.eqb s) values = true <-> s ∈ values.
Proof.
  rewrite existsb_exists, list_elem_of_In. split.
  - intros (x & Hin & Heq). apply String.eqb_eq in Heq. by subst.
  - intros Hin. exists s. split; [done | apply String.eqb_refl].
Qed.

Lemma z_enum_inr (values : list string) (v : option json) (s : string) :
  z_enum values v = inr s <-> v = Some (JString s) /\ s ∈ values.
Proof.
  unfold z_enum. destruct v as [[]|]; try (split; [done | intros [? _]; done]).
  destruct (existsb (String.eqb s0) values) eqn:E.
  - apply existsb_eqb_elem_of in E. split.
    + intros [= ->]. done.
    + intros [[= ->] _]. done.
  - split; [done |]. intros [[= ->] Hin].
    apply existsb_eqb_elem_of in Hin. congruence.
Qed.

Lemma z_enum_valid (values : list string) (w : json) :
  (exists s, z_enum values (Some w) = inr s) <-> in_enum values w.
Proof.
  unfold in_enum. split.
  - intros [s Hs]. apply z_enum_inr in Hs as [[= ->] Hin]. eauto.
  - intros (s & -> & Hin). exists s. by apply z_enum_inr.
Qed.

Lemma title_schema_inr (v : option json) (s : string) :
  z_string [check_min 1 "Title is required"; check_max 200 "Title too long"] v = inr s
  <-> v = Some (JString s) /\ (1 <= String.length s <= 200)%nat.
Proof.
  unfold z_string. destruct v as [[]|]; try (split; [done | intros [? _]; done]).
  cbn [map concat run_check app].
  destruct (Nat.ltb_spec (String.length s0) 1), (Nat.ltb_spec 200 (String.length s0));
    cbn [app]; split;
    first [ done
          | intros [= ->]; split; [done | lia]
          | intros [[= ->] ?]; first [lia | done] ].
Qed.

Lemma content_schema_inr (v : option json) (s : string) :
  z_string [check_min 1 "Content is required"] v = inr s
  <-> v = Some (JString s) /\ (1 <= String.length s)%nat.
Proof.
  unfold z_string. destruct v as [[]|]; try (split; [done | intros [? _]; done]).
  cbn [map concat run_check app].
  destruct (Nat.ltb_spec (String.length s0) 1);
    cbn [app]; split;
    first [ done
          | intros [= ->]; split; [done | lia]
          | intros [[= ->] ?]; first [lia | done] ].
Qed.

Lemma optional_inr {A : Type} (inner : option json -> parsed A) (v : option json)
    (r : option A) :
  optional inner v = inr r
  <-> match v with
      | None => r = None
      | Some _ => exists a, r = Some a /\ inner v = inr a
      end.
Proof.
  unfold optional. destruct v as [w|]; [| split; congruence].
  destruct (inner (Some w)) as [issues|a]; split.
  - done.
  - intros (a & _ & ?). done.
  - intros [= <-]. eauto.
  - intros (a' & -> & [= ->]). done.
Qed.

Lemma optional_enum_valid (values : list string) (v : option json) :
  (exists r, optional (z_enum values) v = inr r)
  <-> (forall w, v = Some w -> in_enum values w).
Proof.
  split.
  - intros [r Hr] w ->. apply optional_inr in Hr as (a & _ & Ha).
    apply z_enum_valid. eauto.
  - intros Hv. destruct v as [w|].
    + destruct (proj2 (z_enum_valid values w) (Hv w eq_refl)) as [s Hs].
      exists (Some s). apply optional_inr. eauto.
    + exists None. by apply optional_inr.
Qed.

(** A parse of the create schema succeeds with [data] exactly when the body is
    an object whose four members parse to the members of [data]. *)
Lemma createDocumentSchema_inr (b : json) (data : documents_route.CreateData) :
  documents_route.createDocumentSchema b = inr data
  <-> exists o, b = JObject o
      /\ (get_prop "title" o = Some (JString (documents_route.title data))
          /\ (1 <= String.length (documents_route.title data) <= 200)%nat)
      /\ (get_prop "content" o = Some (JString (documents_route.content data))
          /\ (1 <= String.length (documents_route.content data))%nat)
      /\ optional (z_enum statuses) (get_prop "status" o) = inr (documents_route.status data)
      /\ optional (z_enum priorities) (get_prop "priority" o)
         = inr (documents_route.priority data).
Proof.
  unfold statuses, priorities.
  destruct b as [| | | | |o]; try (split; [done | intros (? & ? & _); done]).
  cbn [documents_route.createDocumentSchema].
  destruct (z_string _ (get_prop "title" o)) as [?|t] eqn:Et,
           (z_string _ (get_prop "content" o)) as [?|c] eqn:Ec,
           (optional _ (get_prop "status" o)) as [?|s] eqn:Es,
           (optional _ (get_prop "priority" o)) as [?|p] eqn:Ep;
    (split;
     [ try done
     | intros (o' & [= <-] & Ht & Hc & Hs & Hp);
       apply title_schema_inr in Ht; apply content_schema_inr in Hc;
       try congruence ]).
  - intros [= <-]. exists o. cbn.
    apply title_schema_inr in Et. apply content_schema_inr in Ec. done.
  - destruct data. simpl in *. congruence.
Qed.

Lemma createDocumentSchema_valid (b : json) :
  (exists data, documents_route.createDocumentSchema b = inr data) <-> valid_create_body b.
Proof.
  unfold valid_create_body, valid_title, valid_content. split.
  - intros (data & Hd). apply createDocumentSchema_inr in Hd
      as (o & -> & [Ht Hlt] & [Hc Hlc] & Hs & Hp).
    exists o. repeat split; eauto.
    + apply optional_enum_valid; eauto.
    + apply optional_enum_valid; eauto.
  - intros (o & -> & (vt & Ht & t & -> & Hlt) & (vc & Hc & c & -> & Hlc) & Hs & Hp).
    apply optional_enum_valid in Hs as [s Hs], Hp as [p Hp].
    exists (documents_route.mkCreateData t c s p).
    apply createDocumentSchema_inr. exists o. done.
Qed.

(** The same for the update schema. *)
Lemma updateDocumentSchema_inr (b : json) (data : Prisma.UpdateInput) :
  document_route.updateDocumentSchema b = inr data
  <-> exists o, b = JObject o
      /\ optional (z_string [check_min 1 "Title is required"; check_max 200 "Title too long"])
           (get_prop "title" o) = inr (Prisma.update_title data)
      /\ optional (z_string [check_min 1 "Content is required"])
           (get_prop "content" o) = inr (Prisma.update_content data)
      /\ optional (z_enum statuses) (get_prop "status" o) = inr (Prisma.update_status data)
      /\ optional (z_enum priorities) (get_prop "priority" o)
         = inr (Prisma.update_priority data).
Proof.
  unfold statuses, priorities.
  destruct b as [| | | | |o]; try (split; [done | intros (? & ? & _); done]).
  cbn [document_route.updateDocumentSchema].
  destruct (optional _ (get_prop "title" o)) as [?|t] eqn:Et,
           (optional _ (get_prop "content" o)) as [?|c] eqn:Ec,
           (optional _ (get_prop "status" o)) as [?|s] eqn:Es,
           (optional _ (get_prop "priority" o)) as [?|p] eqn:Ep;
    (split; [ try done | intros (o' & [= <-] & ? & ? & ? & ?); try congruence ]).
  - intros [= <-]. exists o. done.
  - destruct data. simpl in *. congruence.
Qed.

Lemma optional_title_valid (v : option json) :
  (exists r, optional (z_string [check_min 1 "Title is required";
                                 check_max 200 "Title too long"]) v = inr r)
  <-> (forall w, v = Some w -> valid_title w).
Proof.
  unfold valid_title. split.
  - intros [r Hr] w ->. apply optional_inr in Hr as (a & _ & Ha).
    apply title_schema_inr in Ha as [[= ->] ?]. eauto.
  - intros Hv. destruct v as [w|].
    + destruct (Hv w eq_refl) as (s & -> & Hl).
      exists (Some s). apply optional_inr. exists s. split; [done|].
      by apply title_schema_inr.
    + exists None. by apply optional_inr.
Qed.

Lemma optional_content_valid (v : option json) :
  (exists r, optional (z_string [check_min 1 "Content is required"]) v = inr r)
  <-> (forall w, v = Some w -> valid_content w).
Proof.
  unfold valid_content. split.
  - intros [r Hr] w ->. apply optional_inr in Hr as (a & _ & Ha).
    apply content_schema_inr in Ha as [[= ->] ?]. eauto.
  - intros Hv. destruct v as [w|].
    + destruct (Hv w eq_refl) as (s & -> & Hl).
      exists (Some s). apply optional_inr. exists s. split; [done|].
      by apply content_schema_inr.
    + exists None. by apply optional_inr.
Qed.

Lemma updateDocumentSchema_valid (b : json) :
  (exists data, document_route.updateDocumentSchema b = inr data) <-> valid_patch_body b.
Proof.
  unfold valid_patch_body. split.
  - intros (data & Hd). apply updateDocumentSchema_inr in Hd
      as (o & -> & Ht & Hc & Hs & Hp).
    exists o. split; [done|].
    split; [apply optional_title_valid; eauto|].
    split; [apply optional_content_valid; eauto|].
    split; apply optional_enum_valid; eauto.
  - intros (o & -> & Ht & Hc & Hs & Hp).
    apply optional_title_valid in Ht as [t Ht].
    apply optional_content_valid in Hc as [c Hc].
    apply optional_enum_valid in Hs as [s Hs], Hp as [p Hp].
    exists (Prisma.mkUpdateInput t c s p).
    apply updateDocumentSchema_inr. exists o. done.
Qed.

(** A parse either succeeds or reports issues; with the two lemmas above, a
    body that is not valid is reported. *)
Lemma createDocumentSchema_invalid (b : json) :
  ~ valid_create_body b -> exists errors, documents_route.createDocumentSchema b = inl errors.
Proof.
  intros Hn. destruct (documents_route.createDocumentSchema b) as [e|data] eqn:E; [eauto|].
  destruct Hn. apply createDocumentSchema_valid. eauto.
Qed.

Lemma updateDocumentSchema_invalid (b : json) :
  ~ valid_patch_body b -> exists errors, document_route.updateDocumentSchema b = inl errors.
Proof.
  intros Hn. destruct (document_route.updateDocumentSchema b) as [e|data] eqn:E; [eauto|].
  destruct Hn. apply updateDocumentSchema_valid. eauto.
Qed.

End schema_facts.

(** ** The resolved identity *)

Section identity_facts.

Context (jwt_verify : string -> string -> Z -> auth.VerifyErrors + auth.JWTPayload)
        (process_env_JWT_SECRET : option string).

(** The identity a request resolves to is a row of [users] read at its key. *)
Lemma getAuthUser_row (now : Z) (db : Prisma.Db) (request : Next.NextRequest)
    (u : Prisma.SelectedUser) :
  auth.getAuthUser jwt_verify process_env_JWT_SECRET now db request = Some u ->
  exists row, Prisma.users db !! Prisma.id u = Some row
              /\ u = Prisma.select_user (Prisma.id u) row.
Proof.
  unfold auth.getAuthUser, Prisma.user_findUnique.
  destruct (negb _); [done|].
  destruct (Next.cookies request !! "auth-token") as [token|]; [|done].
  destruct (auth.verifyToken _ _ _ _) as [p|]; [|done].
  destruct (Prisma.users db !! auth.userId p) as [row|] eqn:E; [|done].
  intros [= <-]. exists row. done.
Qed.

(** The handlers' test is the negation of the ownership rule. *)
Lemma not_author_nor_admin_false (d : Prisma.DocumentRow) (u : Prisma.SelectedUser) :
  document_route.not_author_nor_admin d u = false <-> lifecycle.author_or_admin d u.
Proof.
  unfold document_route.not_author_nor_admin, lifecycle.author_or_admin.
  rewrite andb_false_iff, !negb_false_iff, Z.eqb_eq, String.eqb_eq. done.
Qed.

Lemma not_author_nor_admin_true (d : Prisma.DocumentRow) (u : Prisma.SelectedUser) :
  document_route.not_author_nor_admin d u = true
  <-> Prisma.authorId d <> Prisma.id u /\ Prisma.role u <> "ADMIN".
Proof.
  unfold document_route.not_author_nor_admin.
  rewrite andb_true_iff, !negb_true_iff, Z.eqb_neq, String.eqb_neq. done.
Qed.

End identity_facts.

(** ** Update and delete of one document *)

Section document_route_properties.
Import Json Next lifecycle.

Context (jwt_verify : string -> string -> Z -> auth.VerifyErrors + auth.JWTPayload)
        (process_env_JWT_SECRET : option string).

Local Abbreviation getAuthUser := (auth.getAuthUser jwt_verify process_env_JWT_SECRET).
Local Abbreviation PUT := (document_route.PUT jwt_verify process_env_JWT_SECRET).
Local Abbreviation DELETE := (document_route.DELETE jwt_verify process_env_JWT_SECRET).

(** What an update of a stored row returns: the row with the members of
    [data] written over it and, unless [data] is empty, [updatedAt] at the
    clock; and the store with that row under the key. *)
Lemma document_update_found (now : Z) (db : Prisma.Db) (key : string)
    (data : Prisma.UpdateInput) (old : Prisma.DocumentRow) :
  Prisma.documents db !! key = Some old ->
  exists row,
    Prisma.document_update now db key data
    = Some (row, {| Prisma.users := Prisma.users db;
                    Prisma.documents := <[key := row]> (Prisma.documents db) |})
    /\ row = {| Prisma.title := default (Prisma.title old) (Prisma.update_title data);
                Prisma.content := default (Prisma.content old) (Prisma.update_content data);
                Prisma.status := default (Prisma.status old) (Prisma.update_status data);
                Prisma.priority :=
                  default (Prisma.priority old) (Prisma.update_priority data);
                Prisma.createdAt := Prisma.createdAt old;
                Prisma.updatedAt :=
                  if Prisma.update_is_empty data then Prisma.updatedAt old else now;
                Prisma.authorId := Prisma.authorId old |}.
Proof.
  intros Hd. unfold Prisma.document_update. rewrite Hd.
  destruct (Prisma.update_is_empty data) eqn:He; [|eauto].
  exists old. unfold Prisma.update_is_empty in He.
  destruct data as [[?|] [?|] [?|] [?|]]; try discriminate He. cbn.
  rewrite (insert_id _ _ _ Hd). destruct db, old. done.
Qed.

(** Once the requester is resolved, the body parsed and the row found, an
    update by the author or an administrator writes the row. *)
Lemma PUT_authorized (now : Z) (db : Prisma.Db) (request : NextRequest) (i : string)
    (u : Prisma.SelectedUser) (b : json) (data : Prisma.UpdateInput)
    (d : Prisma.DocumentRow) :
  getAuthUser now db request = Some u ->
  body request = Some b ->
  document_route.updateDocumentSchema b = inr data ->
  Prisma.documents db !! i = Some d ->
  author_or_admin d u ->
  exists d' db',
    Prisma.document_update now db i data = Some (d', db')
    /\ PUT now db request i
       = (NextResponse_json (DocumentBody (Prisma.with_author db' i d')) None, db').
Proof.
  intros Hu Hb Hs Hd Ha. apply not_author_nor_admin_false in Ha.
  destruct (document_update_found now db i data d Hd) as (row & Hw & _).
  unfold document_route.PUT, Prisma.document_findUnique.
  rewrite Hu, Hb, Hs, Hd, Ha, Hw. eauto.
Qed.

(** C10, as the handler has it: in the update, the body is validated before
    the row is looked up and before the ownership test: an authenticated
    request whose body is JSON and is not a valid patch is answered 400 with
    the issues, whatever the id and whoever the requester, and the store is
    left as it was. *)
Theorem update_validates_before_lookup (now : Z) (db : Prisma.Db) (request : NextRequest)
    (i : string) (u : Prisma.SelectedUser) (b : json) :
  getAuthUser now db request = Some u ->
  body request = Some b ->
  ~ valid_patch_body b ->
  status (PUT now db request i).1 = 400
  /\ (exists errors, payload (PUT now db request i).1 = InvalidInputBody "Invalid input" errors)
  /\ (PUT now db request i).2 = db.
Proof.
  intros Hu Hb Hn. apply updateDocumentSchema_invalid in Hn as [errors He].
  unfold document_route.PUT. rewrite Hu, Hb, He. cbn. eauto.
Qed.

(** C9: a delete by the author or an administrator of a stored document
    answers 200 and removes the row; any authenticated delete of the same id
    that follows answers 404 and changes nothing; and a delete of an id that
    has no row answers 404 and changes nothing. *)
Theorem delete_then_not_found (now1 now2 : Z) (db : Prisma.Db)
    (request1 request2 : NextRequest) (i : string) (u1 : Prisma.SelectedUser) :
  getAuthUser now1 db request1 = Some u1 ->
  (forall d, Prisma.documents db !! i = Some d -> author_or_admin d u1 ->
     let db1 := (DELETE now1 db request1 i).2 in
     (DELETE now1 db request1 i).1
     = NextResponse_json (MessageBody "Document deleted successfully") None
     /\ status (DELETE now1 db request1 i).1 = 200
     /\ Prisma.documents db1 !! i = None
     /\ (forall u2, getAuthUser now2 db1 request2 = Some u2 ->
           DELETE now2 db1 request2 i
           = (NextResponse_json (ErrorBody "Document not found") (Some 404), db1)))
  /\ (Prisma.documents db !! i = None ->
        DELETE now1 db request1 i
        = (NextResponse_json (ErrorBody "Document not found") (Some 404), db)).
Proof.
  intros Hu. split.
  - intros d Hd Ha. apply not_author_nor_admin_false in Ha.
    unfold document_route.DELETE at 1 2 3.
    unfold Prisma.document_findUnique, Prisma.document_delete.
    rewrite Hu, Hd, Ha. cbn.
    assert (Hgone : delete i (Prisma.documents db) !! i = None) by apply lookup_delete_eq.
    repeat split; [done|].
    intros u2 Hu2. unfold document_route.DELETE, Prisma.document_findUnique.
    rewrite Hu2. cbn. rewrite Hgone. done.
  - intros Hd. unfold document_route.DELETE, Prisma.document_findUnique.
    rewrite Hu, Hd. done.
Qed.

(** C1, as the handlers have it: for a stored document and a requester who is
    neither its author nor an administrator, a delete is answered 403, and so
    is an update whose body is a valid patch; the store is left as it was.
    For the author or an administrator neither handler answers 403, whatever
    the body.  Both handlers apply the same test. *)
Theorem mutation_needs_author_or_admin (now : Z) (db : Prisma.Db) (request : NextRequest)
    (i : string) (d : Prisma.DocumentRow) (u : Prisma.SelectedUser) :
  getAuthUser now db request = Some u ->
  Prisma.documents db !! i = Some d ->
  (Prisma.authorId d <> Prisma.id u /\ Prisma.role u <> "ADMIN" ->
     (forall b, body request = Some b -> valid_patch_body b ->
        status (PUT now db request i).1 = 403 /\ (PUT now db request i).2 = db)
     /\ status (DELETE now db request i).1 = 403 /\ (DELETE now db request i).2 = db)
  /\ (author_or_admin d u ->
        status (PUT now db request i).1 <> 403 /\ status (DELETE now db request i).1 <> 403).
Proof.
  intros Hu Hd. split.
  - intros Hn. apply not_author_nor_admin_true in Hn. split.
    + intros b Hb Hv. apply updateDocumentSchema_valid in Hv as [data Hs].
      unfold document_route.PUT, Prisma.document_findUnique.
      rewrite Hu, Hb, Hs, Hd, Hn. done.
    + unfold document_route.DELETE, Prisma.document_findUnique.
      rewrite Hu, Hd, Hn. done.
  - intros Ha. split.
    + destruct (body request) as [b|] eqn:Hb.
      * destruct (document_route.updateDocumentSchema b) as [errors|data] eqn:Hs.
        -- unfold document_route.PUT. rewrite Hu, Hb, Hs. done.
        -- destruct (PUT_authorized now db request i u b data d) as (d' & db' & _ & ->); done.
      * unfold document_route.PUT. rewrite Hu, Hb. done.
    + apply not_author_nor_admin_false in Ha.
      unfold document_route.DELETE, Prisma.document_findUnique, Prisma.document_delete.
      rewrite Hu, Hd, Ha. done.
Qed.

End document_route_properties.

(** ** What a successful update leaves and changes *)

Section update_properties.
Import Json Next lifecycle.

Context (jwt_verify : string -> string -> Z -> auth.VerifyErrors + auth.JWTPayload)
        (process_env_JWT_SECRET : option string).

Local Abbreviation PUT := (document_route.PUT jwt_verify process_env_JWT_SECRET).

(** The answers of the update handler other than the last carry an explicit
    status; 200 is the answer that follows the write. *)
Lemma PUT_200 (now : Z) (db : Prisma.Db) (request : NextRequest) (i : string) :
  status (PUT now db request i).1 = 200 ->
  exists o data d' db',
    body request = Some (JObject o)
    /\ document_route.updateDocumentSchema (JObject o) = inr data
    /\ Prisma.document_update now db i data = Some (d', db')
    /\ PUT now db request i
       = (NextResponse_json (DocumentBody (Prisma.with_author db' i d')) None, db').
Proof.
  unfold document_route.PUT.
  destruct (auth.getAuthUser _ _ _ _ _) as [u|]; [|done].
  destruct (body request) as [b|]; [|done].
  destruct (document_route.updateDocumentSchema b) as [errors|data] eqn:Hs; [done|].
  destruct (Prisma.document_findUnique db i) as [d|]; [|done].
  destruct (document_route.not_author_nor_admin d u); [done|].
  destruct (Prisma.document_update now db i data) as [[d' db']|] eqn:Hw; [|done].
  intros _. pose proof Hs as Hs'.
  apply updateDocumentSchema_inr in Hs' as (o & -> & _). eauto 10.
Qed.

(** A member the patch leaves out is [undefined] in the parsed data. *)
Lemma optional_absent {A : Type} (inner : option json -> Zod.parsed A) (r : option A) :
  Zod.optional inner None = inr r -> r = None.
Proof. intros [= <-]. done. Qed.

(** A member of the parsed data is [undefined] exactly when the patch leaves
    it out. *)
Lemma optional_None_iff {A : Type} (inner : option json -> Zod.parsed A) (v : option json)
    (r : option A) :
  Zod.optional inner v = inr r -> (r = None <-> v = None).
Proof.
  intros Hr. apply optional_inr in Hr. destruct v as [w|]; [|done].
  destruct Hr as (a & -> & _). done.
Qed.

(** C8, as the handler and the client have it: after an update answered 200,
    the row is still stored under the same id; every one of the four fields
    that the patch leaves out keeps its value, and a field the patch gives
    takes the given value; [authorId] and [createdAt] keep theirs; [updatedAt]
    is the clock reading of the update when the patch gives at least one of
    the four fields, and keeps its value when the patch gives none; the other
    documents and the users are untouched. *)
Theorem update_frame (now : Z) (db : Prisma.Db) (request : NextRequest) (i : string)
    (d : Prisma.DocumentRow) :
  Prisma.documents db !! i = Some d ->
  status (PUT now db request i).1 = 200 ->
  exists o d',
    body request = Some (JObject o)
    /\ Prisma.documents (PUT now db request i).2 !! i = Some d'
    /\ payload (PUT now db request i).1
       = DocumentBody (Prisma.with_author (PUT now db request i).2 i d')
    /\ (get_prop "title" o = None -> Prisma.title d' = Prisma.title d)
    /\ (get_prop "content" o = None -> Prisma.content d' = Prisma.content d)
    /\ (get_prop "status" o = None -> Prisma.status d' = Prisma.status d)
    /\ (get_prop "priority" o = None -> Prisma.priority d' = Prisma.priority d)
    /\ (forall v, get_prop "title" o = Some v -> v = JString (Prisma.title d'))
    /\ (forall v, get_prop "content" o = Some v -> v = JString (Prisma.content d'))
    /\ (forall v, get_prop "status" o = Some v -> v = JString (Prisma.status d'))
    /\ (forall v, get_prop "priority" o = Some v -> v = JString (Prisma.priority d'))
    /\ Prisma.authorId d' = Prisma.authorId d
    /\ Prisma.createdAt d' = Prisma.createdAt d
    /\ (is_Some (get_prop "title" o) \/ is_Some (get_prop "content" o)
        \/ is_Some (get_prop "status" o) \/ is_Some (get_prop "priority" o) ->
        Prisma.updatedAt d' = now)
    /\ (get_prop "title" o = None -> get_prop "content" o = None ->
        get_prop "status" o = None -> get_prop "priority" o = None ->
        Prisma.updatedAt d' = Prisma.updatedAt d)
    /\ (forall j, j <> i ->
          Prisma.documents (PUT now db request i).2 !! j = Prisma.documents db !! j)
    /\ Prisma.users (PUT now db request i).2 = Prisma.users db.
Proof.
  intros Hd H200.
  destruct (PUT_200 now db request i H200) as (o & data & d' & db' & Hb & Hs & Hw & ->).
  apply updateDocumentSchema_inr in Hs as (o' & [= <-] & Ht & Hc & Hst & Hp).
  destruct (document_update_found now db i data d Hd) as (row & Hw' & Hrow).
  rewrite Hw' in Hw. injection Hw as <- <-. cbn.
  pose proof (optional_None_iff _ _ _ Ht) as Nt.
  pose proof (optional_None_iff _ _ _ Hc) as Nc.
  pose proof (optional_None_iff _ _ _ Hst) as Nst.
  pose proof (optional_None_iff _ _ _ Hp) as Np.
  exists o, row. split; [done|]. split; [apply lookup_insert_eq|].
  split; [done|]. rewrite Hrow. cbn.
  repeat split.
  - intros E. rewrite E in Ht. by rewrite (optional_absent _ _ Ht).
  - intros E. rewrite E in Hc. by rewrite (optional_absent _ _ Hc).
  - intros E. rewrite E in Hst. by rewrite (optional_absent _ _ Hst).
  - intros E. rewrite E in Hp. by rewrite (optional_absent _ _ Hp).
  - intros v E. rewrite E in Ht. apply optional_inr in Ht as (a & -> & Ha).
    apply title_schema_inr in Ha as [[= ->] _]. done.
  - intros v E. rewrite E in Hc. apply optional_inr in Hc as (a & -> & Ha).
    apply content_schema_inr in Ha as [[= ->] _]. done.
  - intros v E. rewrite E in Hst. apply optional_inr in Hst as (a & -> & Ha).
    apply z_enum_inr in Ha as [[= ->] _]. done.
  - intros v E. rewrite E in Hp. apply optional_inr in Hp as (a & -> & Ha).
    apply z_enum_inr in Ha as [[= ->] _]. done.
  - intros Hgiven. unfold Prisma.update_is_empty.
    destruct (Prisma.update_title data); [done|].
    destruct (Prisma.update_content data); [done|].
    destruct (Prisma.update_status data); [done|].
    destruct (Prisma.update_priority data); [done|].
    rewrite (proj1 Nt eq_refl), (proj1 Nc eq_refl), (proj1 Nst eq_refl),
      (proj1 Np eq_refl) in Hgiven.
    destruct Hgiven as [[? ?]|[[? ?]|[[? ?]|[? ?]]]]; done.
  - intros Et Ec Es Ep. unfold Prisma.update_is_empty.
    rewrite (proj2 Nt Et), (proj2 Nc Ec), (proj2 Nst Es), (proj2 Np Ep). done.
  - intros j Hj. by apply lookup_insert_ne.
Qed.

End update_properties.

(** ** Create and list *)

Section documents_route_properties.
Import Json Next lifecycle.

Context (jwt_verify : string -> string -> Z -> auth.VerifyErrors + auth.JWTPayload)
        (process_env_JWT_SECRET : option string).

Local Abbreviation getAuthUser := (auth.getAuthUser jwt_verify process_env_JWT_SECRET).
Local Abbreviation GET := (documents_route.GET jwt_verify process_env_JWT_SECRET).
Local Abbreviation POST := (documents_route.POST jwt_verify process_env_JWT_SECRET).
Local Abbreviation PUT := (document_route.PUT jwt_verify process_env_JWT_SECRET).

(** A create whose body the schema reports is answered 400 and writes
    nothing. *)
Lemma POST_reported (now : Z) (fresh : string) (db : Prisma.Db) (request : NextRequest)
    (u : Prisma.SelectedUser) (b : json) (errors : list Zod.ZodIssue) :
  getAuthUser now db request = Some u ->
  body request = Some b ->
  documents_route.createDocumentSchema b = inl errors ->
  POST now fresh db request
  = (NextResponse_json (InvalidInputBody "Invalid input" errors) (Some 400), db).
Proof.
  intros Hu Hb He. unfold documents_route.POST. rewrite Hu, Hb, He. done.
Qed.

(** A create whose body parses, under an identifier that is free, inserts the
    row built from the parsed data, the defaults and the clock. *)
Lemma POST_parsed (now : Z) (fresh : string) (db : Prisma.Db) (request : NextRequest)
    (u : Prisma.SelectedUser) (b : json) (data : documents_route.CreateData) :
  getAuthUser now db request = Some u ->
  body request = Some b ->
  documents_route.createDocumentSchema b = inr data ->
  Prisma.documents db !! fresh = None ->
  let row := {| Prisma.title := documents_route.title data;
                Prisma.content := documents_route.content data;
                Prisma.status := default "TODO" (documents_route.status data);
                Prisma.priority := default "MEDIUM" (documents_route.priority data);
                Prisma.createdAt := now;
                Prisma.updatedAt := now;
                Prisma.authorId := Prisma.id u |} in
  let db' := {| Prisma.users := Prisma.users db;
                Prisma.documents := <[fresh := row]> (Prisma.documents db) |} in
  POST now fresh db request
  = (NextResponse_json (DocumentBody (Prisma.with_author db' fresh row)) (Some 201), db').
Proof.
  intros Hu Hb Hs Hf. destruct (getAuthUser_row _ _ _ _ _ _ Hu) as (urow & Hrow & _).
  unfold documents_route.POST, Prisma.document_create.
  rewrite Hu, Hb, Hs. cbn. rewrite Hf, Hrow. done.
Qed.

(** C7, as the handler has it: for an authenticated request with a JSON body
    and a free identifier, the create is answered 201 exactly when the body
    has a non-empty title of at most 200 characters, a non-empty content and,
    where it gives them, a status and a priority of the enumerations; any
    other body is answered 400 and nothing is written; and the row created
    has the title and content of the body, the status and priority of the
    body where given, TODO and MEDIUM where not, and the requester as
    author. *)
Theorem create_accepts_valid_bodies (now : Z) (fresh : string) (db : Prisma.Db)
    (request : NextRequest) (u : Prisma.SelectedUser) (b : json) :
  getAuthUser now db request = Some u ->
  body request = Some b ->
  Prisma.documents db !! fresh = None ->
  (valid_create_body b <-> status (POST now fresh db request).1 = 201)
  /\ (~ valid_create_body b ->
        status (POST now fresh db request).1 = 400 /\ (POST now fresh db request).2 = db)
  /\ (valid_create_body b ->
        exists o d,
          b = JObject o
          /\ Prisma.documents (POST now fresh db request).2 !! fresh = Some d
          /\ payload (POST now fresh db request).1
             = DocumentBody (Prisma.with_author (POST now fresh db request).2 fresh d)
          /\ get_prop "title" o = Some (JString (Prisma.title d))
          /\ get_prop "content" o = Some (JString (Prisma.content d))
          /\ (get_prop "status" o = None -> Prisma.status d = "TODO")
          /\ (get_prop "priority" o = None -> Prisma.priority d = "MEDIUM")
          /\ (forall v, get_prop "status" o = Some v -> v = JString (Prisma.status d))
          /\ (forall v, get_prop "priority" o = Some v -> v = JString (Prisma.priority d))
          /\ Prisma.authorId d = Prisma.id u
          /\ Prisma.createdAt d = now
          /\ Prisma.updatedAt d = now
          /\ (forall j, j <> fresh ->
                Prisma.documents (POST now fresh db request).2 !! j
                = Prisma.documents db !! j)).
Proof.
  intros Hu Hb Hf.
  destruct (documents_route.createDocumentSchema b) as [errors|data] eqn:Hs.
  - assert (Hn : ~ valid_create_body b).
    { intros Hv. apply createDocumentSchema_valid in Hv as [data Hd]. congruence. }
    rewrite (POST_reported now fresh db request u b errors Hu Hb Hs). cbn.
    split; [split; [done | discriminate] |]. split; done.
  - assert (Hv : valid_create_body b) by (apply createDocumentSchema_valid; eauto).
    rewrite (POST_parsed now fresh db request u b data Hu Hb Hs Hf). cbn.
    split; [done|]. split; [done|]. intros _.
    apply createDocumentSchema_inr in Hs as (o & -> & [Ht _] & [Hc _] & Hst & Hp).
    exists o. eexists. split; [done|]. split; [apply lookup_insert_eq|].
    split; [done|]. cbn. repeat split; try done.
    + intros E. rewrite E in Hst. by rewrite (optional_absent _ _ Hst).
    + intros E. rewrite E in Hp. by rewrite (optional_absent _ _ Hp).
    + intros v E. rewrite E in Hst. apply optional_inr in Hst as (a & -> & Ha).
      apply z_enum_inr in Ha as [[= ->] _]. done.
    + intros v E. rewrite E in Hp. apply optional_inr in Hp as (a & -> & Ha).
      apply z_enum_inr in Ha as [[= ->] _]. done.
    + intros j Hj. by apply lookup_insert_ne.
Qed.

(** Every document of a listing passes the equality tests of its [where]. *)
Lemma document_findMany_matches (db : Prisma.Db) (w : Prisma.WhereInput)
    (doc : Prisma.Document) :
  doc ∈ Prisma.document_findMany db w -> Prisma.matches w (Prisma.doc_row doc) = true.
Proof.
  unfold Prisma.document_findMany. rewrite list_elem_of_In, in_map_iff.
  intros ([k d] & <- & Hin). apply list_elem_of_In in Hin.
  rewrite merge_sort_Permutation in Hin.
  apply list_elem_of_filter in Hin as [Hm _]. done.
Qed.

(** C4, as the handlers have it: a create body or an update patch that gives
    a status or a priority outside its enumeration is answered 400 and
    nothing is written.  The list handler checks no enumeration: it answers
    200 whatever the query, and a non-empty [status] or [priority] of the
    query is compared as it is with the column, so the listing holds the
    documents whose column equals it. *)
Theorem enumerations_checked_on_writes (now : Z) (db : Prisma.Db) (request : NextRequest)
    (u : Prisma.SelectedUser) :
  getAuthUser now db request = Some u ->
  (forall o v,
     body request = Some (JObject o) ->
     (get_prop "status" o = Some v /\ ~ in_enum statuses v)
     \/ (get_prop "priority" o = Some v /\ ~ in_enum priorities v) ->
     (forall fresh,
        status (POST now fresh db request).1 = 400 /\ (POST now fresh db request).2 = db)
     /\ (forall i,
          status (PUT now db request i).1 = 400 /\ (PUT now db request i).2 = db))
  /\ (status (GET now db request) = 200
      /\ exists docs,
          payload (GET now db request) = DocumentsBody docs
          /\ (forall s, searchParams_get "status" (searchParams request) = Some s ->
                s <> "" -> Forall (fun doc => Prisma.status (Prisma.doc_row doc) = s) docs)
          /\ (forall p, searchParams_get "priority" (searchParams request) = Some p ->
                p <> "" -> Forall (fun doc => Prisma.priority (Prisma.doc_row doc) = p) docs)).
Proof.
  intros Hu. split.
  - intros o v Hb Hbad. split.
    + intros fresh.
      assert (Hn : ~ valid_create_body (JObject o)).
      { intros (o' & [= <-] & _ & _ & Hs & Hp). destruct Hbad as [[E Hv]|[E Hv]]; eauto. }
      apply createDocumentSchema_invalid in Hn as [errors He].
      rewrite (POST_reported now fresh db request u _ errors Hu Hb He). done.
    + intros i.
      assert (Hn : ~ valid_patch_body (JObject o)).
      { intros (o' & [= <-] & _ & _ & Hs & Hp). destruct Hbad as [[E Hv]|[E Hv]]; eauto. }
      apply updateDocumentSchema_invalid in Hn as [errors He].
      unfold document_route.PUT. rewrite Hu, Hb, He. done.
  - unfold documents_route.GET. rewrite Hu. cbn. split; [done|].
    eexists. split; [done|]. split.
    + intros s Hs Hne. apply Forall_forall. intros doc Hin.
      apply document_findMany_matches in Hin. unfold Prisma.matches in Hin.
      rewrite Hs in Hin. cbn in Hin.
      apply String.eqb_neq in Hne. rewrite Hne in Hin. cbn in Hin.
      apply andb_true_iff in Hin as [Hin _]. by apply String.eqb_eq.
    + intros p Hp Hne. apply Forall_forall. intros doc Hin.
      apply document_findMany_matches in Hin. unfold Prisma.matches in Hin.
      rewrite Hp in Hin. cbn in Hin.
      apply String.eqb_neq in Hne. rewrite Hne in Hin. cbn in Hin.
      apply andb_true_iff in Hin as [_ Hin]. by apply String.eqb_eq.
Qed.

End documents_route_properties.

(** ** The access guard and the signing secret *)

Section auth_properties.

Context (jwt_sign : auth.JWTPayload -> string -> string -> Z -> string)
        (jwt_verify : string -> string -> Z -> auth.VerifyErrors + auth.JWTPayload).

Lemma includes_elem_of (roles : list string) (r : string) :
  auth.includes roles r = true <-> r ∈ roles.
Proof. apply existsb_eqb_elem_of. Qed.

(** Whatever [jwt.verify] throws, [verifyToken] answers [null]. *)
Lemma verifyToken_catches (env : option string) (token : string) (now : Z)
    (e : auth.VerifyErrors) :
  jwt_verify token (auth.JWT_SECRET env) now = inl e ->
  auth.verifyToken jwt_verify env token now = None.
Proof. unfold auth.verifyToken. intros ->. done. Qed.

(** C2, as the guard has it: for a resolved identity, the guard answers 403
    exactly when a list of roles is given and the role of the identity is not
    in it, and allows the identity exactly when no list is given or the role
    is in the list.  A given list that is empty therefore denies every
    identity. *)
Theorem requireAuth_forbidden_iff (env : option string) (roles : option (list string))
    (now : Z) (db : Prisma.Db) (request : Next.NextRequest) (u : Prisma.SelectedUser) :
  auth.getAuthUser jwt_verify env now db request = Some u ->
  (auth.requireAuth jwt_verify env roles now db request = auth.Denied "Forbidden" 403
   <-> exists rs, roles = Some rs /\ Prisma.role u ∉ rs)
  /\ (auth.requireAuth jwt_verify env roles now db request = auth.Allowed u
      <-> roles = None \/ exists rs, roles = Some rs /\ Prisma.role u ∈ rs)
  /\ (roles = Some [] ->
      auth.requireAuth jwt_verify env roles now db request = auth.Denied "Forbidden" 403).
Proof.
  intros Hu. unfold auth.requireAuth. rewrite Hu.
  destruct roles as [rs|].
  - destruct (auth.includes rs (Prisma.role u)) eqn:E; cbn.
    + apply includes_elem_of in E. split; [|split].
      * split; [done|]. intros (rs' & [= <-] & Hn). done.
      * split; [eauto|done].
      * intros [= ->]. by apply not_elem_of_nil in E.
    + assert (Hn : Prisma.role u ∉ rs).
      { intros Hin. apply includes_elem_of in Hin. congruence. }
      split; [|split].
      * split; [eauto|done].
      * split; [done|]. intros [|(rs' & [= <-] & Hin)]; done.
      * done.
  - split; [|split].
    + split; [done|]. intros (rs & ? & _). done.
    + split; [eauto|done].
    + done.
Qed.

(** C3: with [JWT_SECRET] unset, or set to the empty string, the secret is the
    literal of the source, and tokens are signed and verified with it. *)
Theorem unset_secret_falls_back (payload : auth.JWTPayload) (token : string) (now : Z) :
  auth.JWT_SECRET None = "fallback-secret-key"
  /\ auth.JWT_SECRET (Some "") = "fallback-secret-key"
  /\ auth.signToken jwt_sign None payload now
     = jwt_sign payload "fallback-secret-key" "7d" now
  /\ auth.verifyToken jwt_verify None token now
     = match jwt_verify token "fallback-secret-key" now with
       | inr p => Some p
       | inl _ => None
       end.
Proof. repeat split. Qed.

End auth_properties.

(** ** The enumerations as an invariant of the store *)

Section store_invariant.
Import Json Next lifecycle.

Context (jwt_verify : string -> string -> Z -> auth.VerifyErrors + auth.JWTPayload)
        (process_env_JWT_SECRET : option string).

Lemma optional_enum_default (values : list string) (v : option json) (r : option string)
    (dflt : string) :
  Zod.optional (Zod.z_enum values) v = inr r -> dflt ∈ values -> default dflt r ∈ values.
Proof.
  intros Hr Hd. apply optional_inr in Hr. destruct v as [w|].
  - destruct Hr as (a & -> & Ha). apply z_enum_inr in Ha as [_ Ha]. done.
  - by subst r.
Qed.

Lemma enumerated_insert (db : Prisma.Db) (i : string) (d : Prisma.DocumentRow) :
  enumerated db ->
  Prisma.status d ∈ statuses -> Prisma.priority d ∈ priorities ->
  enumerated {| Prisma.users := Prisma.users db;
                Prisma.documents := <[i := d]> (Prisma.documents db) |}.
Proof.
  intros Hdb Hs Hp j d'. cbn. rewrite lookup_insert. case_decide.
  - intros [= <-]. done.
  - apply Hdb.
Qed.

(** X19: No handler writes a status or a priority outside the enumerations:
    whatever the request, a store that holds only enumerated values still
    does after a create, an update or a delete. *)
Lemma handlers_keep_enumerated (now : Z) (fresh i : string) (db : Prisma.Db)
    (request : NextRequest) :
  enumerated db ->
  enumerated (documents_route.POST jwt_verify process_env_JWT_SECRET now fresh db request).2
  /\ enumerated (document_route.PUT jwt_verify process_env_JWT_SECRET now db request i).2
  /\ enumerated (document_route.DELETE jwt_verify process_env_JWT_SECRET now db request i).2.
Proof.
  intros Hdb. split; [|split].
  - unfold documents_route.POST.
    destruct (auth.getAuthUser _ _ _ _ _) as [u|]; [|done].
    destruct (body request) as [b|]; [|done].
    destruct (documents_route.createDocumentSchema b) as [errors|data] eqn:Hs; [done|].
    unfold Prisma.document_create. cbn.
    destruct (Prisma.documents db !! fresh); [done|].
    destruct (Prisma.users db !! Prisma.id u); [|done]. cbn.
    apply createDocumentSchema_inr in Hs as (o & _ & _ & _ & Hst & Hp).
    apply enumerated_insert; [done| |]; cbn.
    + apply (optional_enum_default _ _ _ _ Hst). set_solver.
    + apply (optional_enum_default _ _ _ _ Hp). set_solver.
  - unfold document_route.PUT.
    destruct (auth.getAuthUser _ _ _ _ _) as [u|]; [|done].
    destruct (body request) as [b|]; [|done].
    destruct (document_route.updateDocumentSchema b) as [errors|data] eqn:Hs; [done|].
    unfold Prisma.document_findUnique.
    destruct (Prisma.documents db !! i) as [d|] eqn:Hd; [|done].
    destruct (document_route.not_author_nor_admin d u); [done|].
    destruct (document_update_found now db i data d Hd) as (row & -> & ->). cbn.
    apply updateDocumentSchema_inr in Hs as (o & _ & _ & _ & Hst & Hp).
    destruct (Hdb i d Hd) as [Hds Hdp].
    apply enumerated_insert; [done| |]; cbn.
    + apply (optional_enum_default _ _ _ _ Hst Hds).
    + apply (optional_enum_default _ _ _ _ Hp Hdp).
  - unfold document_route.DELETE.
    destruct (auth.getAuthUser _ _ _ _ _) as [u|]; [|done].
    unfold Prisma.document_findUnique, Prisma.document_delete.
    destruct (Prisma.documents db !! i) as [d|] eqn:Hd; [|done].
    destruct (document_route.not_author_nor_admin d u); [done|]. cbn.
    intros j d'. cbn. rewrite lookup_delete. case_decide; [done|]. apply Hdb.
Qed.

End store_invariant.

(** ** The handlers on concrete requests *)

Section runs.
Import Json Next lifecycle.

Local Abbreviation getAuthUser := (auth.getAuthUser sample.jwt_verify sample.env).
Local Abbreviation requireAuth := (auth.requireAuth sample.jwt_verify sample.env).
Local Abbreviation GET := (documents_route.GET sample.jwt_verify sample.env).
Local Abbreviation POST := (documents_route.POST sample.jwt_verify sample.env).
Local Abbreviation PUT := (document_route.PUT sample.jwt_verify sample.env).
Local Abbreviation DELETE := (document_route.DELETE sample.jwt_verify sample.env).

(** Beto is neither the author of the checklist nor an administrator; his
    update of it with an empty title is answered 400, not 403. *)
Lemma update_invalid_patch_by_stranger :
  getAuthUser 2000 sample.db (sample.request "token-of-beto" (Some sample.empty_title_patch) [])
  = Some sample.beto
  /\ Prisma.documents sample.db !! "doc-1" = Some sample.checklist
  /\ Prisma.authorId sample.checklist <> Prisma.id sample.beto
  /\ Prisma.role sample.beto <> "ADMIN"
  /\ status (PUT 2000 sample.db
               (sample.request "token-of-beto" (Some sample.empty_title_patch) []) "doc-1").1
     = 400
  /\ status (PUT 2000 sample.db
               (sample.request "token-of-beto" (Some sample.empty_title_patch) []) "doc-1").1
     <> 403.
Proof. repeat split; vm_compute; congruence. Qed.

(** The guard called with an empty list of roles denies the administrator. *)
Lemma requireAuth_empty_list_denies :
  getAuthUser 2000 sample.db (sample.request "token-of-admin" None []) = Some sample.admin
  /\ requireAuth (Some []) 2000 sample.db (sample.request "token-of-admin" None [])
     = auth.Denied "Forbidden" 403.
Proof. split; vm_compute; reflexivity. Qed.

(** A listing filtered by a status outside the enumeration is answered 200
    with no document; it is not rejected. *)
Lemma list_with_unknown_status :
  getAuthUser 2000 sample.db (sample.request "token-of-ana" None [("status", "BOGUS")])
  = Some sample.ana
  /\ ("BOGUS" ∉ statuses)
  /\ GET 2000 sample.db (sample.request "token-of-ana" None [("status", "BOGUS")])
     = NextResponse_json (DocumentsBody []) None
  /\ status (GET 2000 sample.db (sample.request "token-of-ana" None [("status", "BOGUS")]))
     = 200.
Proof.
  repeat split; try (vm_compute; reflexivity).
  intros Hin. apply existsb_eqb_elem_of in Hin. vm_compute in Hin. discriminate.
Qed.

(** A create with a good title, a good content and a status outside the
    enumeration is answered 400 and writes nothing. *)
Lemma create_with_unknown_status :
  getAuthUser 2000 sample.db
    (sample.request "token-of-ana" (Some sample.backup_body_unknown_status) [])
  = Some sample.ana
  /\ Prisma.documents sample.db !! "doc-2" = None
  /\ (exists v, get_prop "title" [("title", JString "Backup Procedures");
                                  ("content", JString "Daily backup procedures completed");
                                  ("status", JString "BOGUS")] = Some v
                /\ valid_title v)
  /\ (exists v, get_prop "content" [("title", JString "Backup Procedures");
                                    ("content", JString "Daily backup procedures completed");
                                    ("status", JString "BOGUS")] = Some v
                /\ valid_content v)
  /\ status (POST 2000 "doc-2" sample.db
               (sample.request "token-of-ana" (Some sample.backup_body_unknown_status) [])).1
     = 400
  /\ (POST 2000 "doc-2" sample.db
        (sample.request "token-of-ana" (Some sample.backup_body_unknown_status) [])).2
     = sample.db.
Proof.
  repeat split; try (vm_compute; reflexivity).
  - eexists. split; [reflexivity|]. eexists. split; [reflexivity|]. cbn. lia.
  - eexists. split; [reflexivity|]. eexists. split; [reflexivity|]. cbn. lia.
Qed.

(** An update at the clock reading the row already carries is answered 200 and
    leaves [updatedAt] equal to what it was, not later. *)
Lemma update_at_same_instant :
  Prisma.documents sample.db !! "doc-1" = Some sample.checklist
  /\ status (PUT 1000 sample.db
               (sample.request "token-of-ana" (Some sample.start_patch) []) "doc-1").1 = 200
  /\ exists d',
       Prisma.documents
         (PUT 1000 sample.db
            (sample.request "token-of-ana" (Some sample.start_patch) []) "doc-1").2
         !! "doc-1" = Some d'
       /\ Prisma.updatedAt d' = Prisma.updatedAt sample.checklist
       /\ ~ (Prisma.updatedAt sample.checklist < Prisma.updatedAt d').
Proof.
  split; [vm_compute; reflexivity|]. split; [vm_compute; reflexivity|].
  eexists. split; [vm_compute; reflexivity|]. cbn. split; [reflexivity | lia].
Qed.

(** Beto's update with a body that is not JSON is answered 500, not 400: the
    body never reaches the schema. *)
Lemma update_unreadable_body_answers_500 :
  getAuthUser 2000 sample.db (sample.request "token-of-beto" None []) = Some sample.beto
  /\ body (sample.request "token-of-beto" None []) = None
  /\ status (PUT 2000 sample.db (sample.request "token-of-beto" None []) "doc-1").1 = 500
  /\ status (PUT 2000 sample.db (sample.request "token-of-beto" None []) "doc-1").1 <> 400
  /\ (PUT 2000 sample.db (sample.request "token-of-beto" None []) "doc-1").2 = sample.db.
Proof. repeat split; vm_compute; congruence. Qed.

(** Beto's update of the checklist with a valid patch, and his delete of it,
    are answered 403. *)
Lemma mutation_by_stranger_run :
  getAuthUser 2000 sample.db (sample.request "token-of-beto" (Some sample.start_patch) [])
  = Some sample.beto
  /\ Prisma.documents sample.db !! "doc-1" = Some sample.checklist
  /\ status (PUT 2000 sample.db
               (sample.request "token-of-beto" (Some sample.start_patch) []) "doc-1").1 = 403
  /\ status (DELETE 2000 sample.db
               (sample.request "token-of-beto" (Some sample.start_patch) []) "doc-1").1 = 403.
Proof.
  assert (Hu : getAuthUser 2000 sample.db
                 (sample.request "token-of-beto" (Some sample.start_patch) [])
               = Some sample.beto) by (vm_compute; reflexivity).
  assert (Hd : Prisma.documents sample.db !! "doc-1" = Some sample.checklist)
    by (vm_compute; reflexivity).
  split; [exact Hu|]. split; [exact Hd|].
  destruct (mutation_needs_author_or_admin sample.jwt_verify sample.env 2000 sample.db
              _ "doc-1" sample.checklist sample.beto Hu Hd) as [Hn _].
  destruct Hn as (Hput & Hdel & _).
  { split; vm_compute; congruence. }
  split; [|exact Hdel].
  apply (Hput sample.start_patch); [reflexivity|].
  apply updateDocumentSchema_valid. eexists. vm_compute. reflexivity.
Defined.

(** Beto, a plain user, is denied by a guard that requires an administrator. *)
Lemma requireAuth_run :
  getAuthUser 2000 sample.db (sample.request "token-of-beto" None []) = Some sample.beto
  /\ requireAuth (Some ["ADMIN"]) 2000 sample.db (sample.request "token-of-beto" None [])
     = auth.Denied "Forbidden" 403.
Proof.
  assert (Hu : getAuthUser 2000 sample.db (sample.request "token-of-beto" None [])
               = Some sample.beto) by (vm_compute; reflexivity).
  split; [exact Hu|].
  destruct (requireAuth_forbidden_iff sample.jwt_verify sample.env (Some ["ADMIN"]) 2000
              sample.db _ sample.beto Hu) as [[_ Hdenied] _].
  apply Hdenied. exists ["ADMIN"]. split; [reflexivity|].
  intros Hin. apply existsb_eqb_elem_of in Hin. vm_compute in Hin. discriminate.
Defined.

(** Ana's create with a status outside the enumeration is answered 400. *)
Lemma unknown_status_run :
  getAuthUser 2000 sample.db
    (sample.request "token-of-ana" (Some sample.backup_body_unknown_status) [])
  = Some sample.ana
  /\ status (POST 2000 "doc-2" sample.db
               (sample.request "token-of-ana" (Some sample.backup_body_unknown_status) [])).1
     = 400.
Proof.
  assert (Hu : getAuthUser 2000 sample.db
                 (sample.request "token-of-ana" (Some sample.backup_body_unknown_status) [])
               = Some sample.ana) by (vm_compute; reflexivity).
  split; [exact Hu|].
  destruct (enumerations_checked_on_writes sample.jwt_verify sample.env 2000 sample.db
              _ sample.ana Hu) as [Hw _].
  refine (proj1 (proj1 (Hw _ (JString "BOGUS") eq_refl _) "doc-2")).
  left. split; [reflexivity|].
  intros (s & [= <-] & Hin). apply existsb_eqb_elem_of in Hin.
  vm_compute in Hin. discriminate.
Defined.

(** Ana's create with a title and a content alone stores a TODO document of
    MEDIUM priority. *)
Lemma create_defaults_run :
  getAuthUser 2000 sample.db (sample.request "token-of-ana" (Some sample.guide_body) [])
  = Some sample.ana
  /\ Prisma.documents sample.db !! "doc-2" = None
  /\ status (POST 2000 "doc-2" sample.db
               (sample.request "token-of-ana" (Some sample.guide_body) [])).1 = 201
  /\ exists d,
       Prisma.documents
         (POST 2000 "doc-2" sample.db
            (sample.request "token-of-ana" (Some sample.guide_body) [])).2 !! "doc-2"
       = Some d
       /\ Prisma.status d = "TODO" /\ Prisma.priority d = "MEDIUM".
Proof.
  assert (Hu : getAuthUser 2000 sample.db
                 (sample.request "token-of-ana" (Some sample.guide_body) [])
               = Some sample.ana) by (vm_compute; reflexivity).
  assert (Hf : Prisma.documents sample.db !! "doc-2" = None) by (vm_compute; reflexivity).
  assert (Hv : valid_create_body sample.guide_body).
  { apply createDocumentSchema_valid. eexists. vm_compute. reflexivity. }
  split; [exact Hu|]. split; [exact Hf|].
  destruct (create_accepts_valid_bodies sample.jwt_verify sample.env 2000 "doc-2"
              sample.db _ sample.ana sample.guide_body Hu eq_refl Hf)
    as (Hiff & _ & Hrow).
  split; [apply Hiff, Hv|].
  destruct (Hrow Hv) as (o & d & Ho & Hd & _ & _ & _ & Hs & Hp & _).
  injection Ho as <-.
  exists d. split; [exact Hd|]. split; [apply Hs | apply Hp]; reflexivity.
Defined.

(** Ana's update of the status of her checklist at time 5000 keeps its title
    and its author and sets [updatedAt] to 5000. *)
Lemma update_frame_run :
  Prisma.documents sample.db !! "doc-1" = Some sample.checklist
  /\ status (PUT 5000 sample.db
               (sample.request "token-of-ana" (Some sample.start_patch) []) "doc-1").1 = 200
  /\ exists d',
       Prisma.documents
         (PUT 5000 sample.db
            (sample.request "token-of-ana" (Some sample.start_patch) []) "doc-1").2
         !! "doc-1" = Some d'
       /\ Prisma.title d' = "Server Maintenance Checklist"
       /\ Prisma.authorId d' = 1
       /\ Prisma.updatedAt d' = 5000.
Proof.
  assert (Hd : Prisma.documents sample.db !! "doc-1" = Some sample.checklist)
    by (vm_compute; reflexivity).
  assert (H200 : status (PUT 5000 sample.db
                           (sample.request "token-of-ana" (Some sample.start_patch) [])
                           "doc-1").1 = 200) by (vm_compute; reflexivity).
  split; [exact Hd|]. split; [exact H200|].
  destruct (update_frame sample.jwt_verify sample.env 5000 sample.db _ "doc-1"
              sample.checklist Hd H200)
    as (o & d' & Ho & Hd' & _ & Ht & _ & _ & _ & _ & _ & _ & _ & Ha & _ & Hup & _).
  injection Ho as <-.
  exists d'. split; [exact Hd'|]. split; [apply Ht; reflexivity|].
  split; [exact Ha|].
  apply Hup. right. right. left. eexists. reflexivity.
Defined.

(** Ana deletes her checklist at time 3000; her delete of it at time 4000 is
    answered 404. *)
Lemma delete_twice_run :
  getAuthUser 3000 sample.db (sample.request "token-of-ana" None []) = Some sample.ana
  /\ status (DELETE 3000 sample.db (sample.request "token-of-ana" None []) "doc-1").1 = 200
  /\ status (DELETE 4000
               (DELETE 3000 sample.db (sample.request "token-of-ana" None []) "doc-1").2
               (sample.request "token-of-ana" None []) "doc-1").1 = 404.
Proof.
  assert (Hu : getAuthUser 3000 sample.db (sample.request "token-of-ana" None [])
               = Some sample.ana) by (vm_compute; reflexivity).
  split; [exact Hu|].
  destruct (delete_then_not_found sample.jwt_verify sample.env 3000 4000 sample.db
              (sample.request "token-of-ana" None []) (sample.request "token-of-ana" None [])
              "doc-1" sample.ana Hu) as [Hfirst _].
  destruct (Hfirst sample.checklist) as (_ & H200 & _ & Hsecond).
  { vm_compute. reflexivity. }
  { left. reflexivity. }
  split; [exact H200|].
  rewrite (Hsecond sample.ana); [reflexivity|]. vm_compute. reflexivity.
Defined.

(** Beto's update with an empty title of an id that has no row is answered
    400, not 404. *)
Lemma update_validates_before_lookup_run :
  getAuthUser 2000 sample.db
    (sample.request "token-of-beto" (Some sample.empty_title_patch) []) = Some sample.beto
  /\ Prisma.documents sample.db !! "doc-404" = None
  /\ status (PUT 2000 sample.db
               (sample.request "token-of-beto" (Some sample.empty_title_patch) [])
               "doc-404").1 = 400.
Proof.
  assert (Hu : getAuthUser 2000 sample.db
                 (sample.request "token-of-beto" (Some sample.empty_title_patch) [])
               = Some sample.beto) by (vm_compute; reflexivity).
  split; [exact Hu|]. split; [vm_compute; reflexivity|].
  apply (update_validates_before_lookup sample.jwt_verify sample.env 2000 sample.db _
           "doc-404" sample.beto sample.empty_title_patch Hu eq_refl).
  intros Hv. apply updateDocumentSchema_valid in Hv as [data Hdata].
  vm_compute in Hdata. discriminate.
Defined.

End runs.

(** * Further properties of the code *)

(** ** Resolving the identity of a request *)

Section identity_properties.
Import Next.

Context (jwt_verify : string -> string -> Z -> auth.VerifyErrors + auth.JWTPayload)
        (process_env_JWT_SECRET : option string).

Local Abbreviation getAuthUser := (auth.getAuthUser jwt_verify process_env_JWT_SECRET).
Local Abbreviation requireAuth := (auth.requireAuth jwt_verify process_env_JWT_SECRET).

(** What a resolved identity comes from. *)
Lemma getAuthUser_Some_inv (now : Z) (db : Prisma.Db) (request : NextRequest)
    (u : Prisma.SelectedUser) :
  getAuthUser now db request = Some u ->
  exists token p row,
    cookies request !! "auth-token" = Some token
    /\ token <> ""
    /\ jwt_verify token (auth.JWT_SECRET process_env_JWT_SECRET) now = inr p
    /\ Prisma.users db !! auth.userId p = Some row
    /\ u = Prisma.select_user (auth.userId p) row.
Proof.
  unfold auth.getAuthUser, auth.verifyToken, Prisma.user_findUnique, truthy.
  destruct (cookies request !! "auth-token") as [token|]; [|done]. cbn.
  destruct (String.eqb_spec token "") as [->|Hne]; [done|]. cbn.
  destruct (jwt_verify token _ now) as [e|p] eqn:Hv; [done|].
  destruct (Prisma.users db !! auth.userId p) as [row|] eqn:Hrow; [|done]. cbn.
  intros [= <-]. exists token, p, row. done.
Qed.

(** X1: A request resolves to an identity exactly when it carries a non-empty
    [auth-token] cookie that [jwt.verify] accepts under the secret and whose
    [userId] is the key of a row of [users]; the identity is then that row
    without its password. *)
Theorem getAuthUser_resolves_iff (now : Z) (db : Prisma.Db) (request : NextRequest)
    (u : Prisma.SelectedUser) :
  getAuthUser now db request = Some u
  <-> exists token p row,
        cookies request !! "auth-token" = Some token
        /\ token <> ""
        /\ jwt_verify token (auth.JWT_SECRET process_env_JWT_SECRET) now = inr p
        /\ Prisma.users db !! auth.userId p = Some row
        /\ u = Prisma.select_user (auth.userId p) row.
Proof.
  split; [apply getAuthUser_Some_inv|].
  intros (token & p & row & Hc & Hne & Hv & Hrow & ->).
  unfold auth.getAuthUser, auth.verifyToken, Prisma.user_findUnique, truthy.
  rewrite Hc. apply String.eqb_neq in Hne. rewrite Hne. cbn. rewrite Hv, Hrow. done.
Qed.

(** X2: The identity is read from the store at every request: once a request
    resolves to a user, the same request against a store in which that user's
    row has changed resolves to the changed row, whatever role and email the
    token carries, and no longer resolves when the row is gone. *)
Theorem getAuthUser_follows_store (now : Z) (db : Prisma.Db) (request : NextRequest)
    (u : Prisma.SelectedUser) (users' : gmap Z Prisma.UserRow) :
  getAuthUser now db request = Some u ->
  getAuthUser now {| Prisma.users := users'; Prisma.documents := Prisma.documents db |} request
  = Prisma.select_user (Prisma.id u) <$> users' !! Prisma.id u.
Proof.
  intros Hu. apply getAuthUser_Some_inv in Hu
    as (token & p & row & Hc & Hne & Hv & Hrow & ->).
  unfold auth.getAuthUser, auth.verifyToken, Prisma.user_findUnique, truthy.
  rewrite Hc. apply String.eqb_neq in Hne. rewrite Hne. cbn. rewrite Hv. done.
Qed.

(** X3: The guard answers 401 exactly when the request resolves to no identity,
    whatever roles it is given, and the user it lets through is the identity
    of the request. *)
Theorem requireAuth_unauthorized_iff (roles : option (list string)) (now : Z)
    (db : Prisma.Db) (request : NextRequest) :
  (requireAuth roles now db request = auth.Denied "Unauthorized" 401
   <-> getAuthUser now db request = None)
  /\ (forall u, requireAuth roles now db request = auth.Allowed u ->
        getAuthUser now db request = Some u).
Proof.
  unfold auth.requireAuth.
  destruct (auth.getAuthUser _ _ _ _ _) as [u|]; [|split; done].
  destruct roles as [rs|]; [destruct (negb _)|]; split;
    try (split; done); try done; intros ? [= <-]; done.
Qed.

End identity_properties.

(** ** The five handlers together *)

Section handler_properties.
Import Json Next lifecycle.

Context (jwt_verify : string -> string -> Z -> auth.VerifyErrors + auth.JWTPayload)
        (process_env_JWT_SECRET : option string).

Local Abbreviation getAuthUser := (auth.getAuthUser jwt_verify process_env_JWT_SECRET).
Local Abbreviation LIST := (documents_route.GET jwt_verify process_env_JWT_SECRET).
Local Abbreviation POST := (documents_route.POST jwt_verify process_env_JWT_SECRET).
Local Abbreviation GET := (document_route.GET jwt_verify process_env_JWT_SECRET).
Local Abbreviation PUT := (document_route.PUT jwt_verify process_env_JWT_SECRET).
Local Abbreviation DELETE := (document_route.DELETE jwt_verify process_env_JWT_SECRET).

(** The row and the store of a create that is answered 201. *)
Lemma POST_201 (now : Z) (fresh : string) (db : Prisma.Db) (request : NextRequest) :
  status (POST now fresh db request).1 = 201 ->
  exists u b data,
    getAuthUser now db request = Some u
    /\ body request = Some b
    /\ documents_route.createDocumentSchema b = inr data
    /\ Prisma.documents db !! fresh = None.
Proof.
  unfold documents_route.POST.
  destruct (auth.getAuthUser _ _ _ _ _) as [u|]; [|done].
  destruct (body request) as [b|]; [|done].
  destruct (documents_route.createDocumentSchema b) as [errors|data] eqn:Hs; [done|].
  unfold Prisma.document_create. cbn.
  destruct (Prisma.documents db !! fresh) eqn:Hf; [done|]. eauto 10.
Qed.

(** The store of a delete that is answered 200. *)
Lemma DELETE_200 (now : Z) (db : Prisma.Db) (request : NextRequest) (i : string) :
  status (DELETE now db request i).1 = 200 ->
  (DELETE now db request i).2
  = {| Prisma.users := Prisma.users db;
       Prisma.documents := delete i (Prisma.documents db) |}.
Proof.
  unfold document_route.DELETE.
  destruct (auth.getAuthUser _ _ _ _ _) as [u|]; [|done].
  unfold Prisma.document_findUnique, Prisma.document_delete.
  destruct (Prisma.documents db !! i) as [d|]; [|done].
  destruct (document_route.not_author_nor_admin d u); done.
Qed.

(** X4: Each of the five handlers answers 401 exactly when the request resolves
    to no identity, and then the store is left as it was. *)
Theorem handlers_answer_401_iff (now : Z) (fresh i : string) (db : Prisma.Db)
    (request : NextRequest) :
  (status (LIST now db request) = 401 <-> getAuthUser now db request = None)
  /\ (status (POST now fresh db request).1 = 401 <-> getAuthUser now db request = None)
  /\ (status (GET now db request i) = 401 <-> getAuthUser now db request = None)
  /\ (status (PUT now db request i).1 = 401 <-> getAuthUser now db request = None)
  /\ (status (DELETE now db request i).1 = 401 <-> getAuthUser now db request = None)
  /\ (getAuthUser now db request = None ->
        (POST now fresh db request).2 = db
        /\ (PUT now db request i).2 = db
        /\ (DELETE now db request i).2 = db).
Proof.
  unfold documents_route.GET, documents_route.POST, document_route.GET,
    document_route.PUT, document_route.DELETE.
  destruct (auth.getAuthUser _ _ _ _ _) as [u|]; [|repeat split; done].
  repeat split; try done; intros H; exfalso; revert H.
  - destruct (body request) as [b|]; [|done].
    destruct (documents_route.createDocumentSchema b); [done|].
    destruct (Prisma.document_create _ _ _ _) as [[]|]; done.
  - destruct (Prisma.document_findUnique db i); done.
  - destruct (body request) as [b|]; [|done].
    destruct (document_route.updateDocumentSchema b); [done|].
    destruct (Prisma.document_findUnique db i) as [d|]; [|done].
    destruct (document_route.not_author_nor_admin d u); [done|].
    destruct (Prisma.document_update _ _ _ _) as [[]|]; done.
  - destruct (Prisma.document_findUnique db i) as [d|]; [|done].
    destruct (document_route.not_author_nor_admin d u); [done|].
    destruct (Prisma.document_delete _ _); done.
Qed.

(** X5: What the handlers can touch, whatever the request: never the users; a
    create only the row of the generated id, and not even that one when the
    id is taken; an update only the row of its id, which it never adds or
    removes; a delete only the row of its id. *)
Theorem handlers_footprint (now : Z) (fresh i : string) (db : Prisma.Db)
    (request : NextRequest) :
  Prisma.users (POST now fresh db request).2 = Prisma.users db
  /\ Prisma.users (PUT now db request i).2 = Prisma.users db
  /\ Prisma.users (DELETE now db request i).2 = Prisma.users db
  /\ (forall j, j <> fresh ->
        Prisma.documents (POST now fresh db request).2 !! j = Prisma.documents db !! j)
  /\ (is_Some (Prisma.documents db !! fresh) -> (POST now fresh db request).2 = db)
  /\ (forall j, j <> i ->
        Prisma.documents (PUT now db request i).2 !! j = Prisma.documents db !! j)
  /\ dom (Prisma.documents (PUT now db request i).2) = dom (Prisma.documents db)
  /\ (forall j, j <> i ->
        Prisma.documents (DELETE now db request i).2 !! j = Prisma.documents db !! j).
Proof.
  assert (HP : (POST now fresh db request).2 = db
               \/ exists row, Prisma.documents db !! fresh = None
                  /\ (POST now fresh db request).2
                     = {| Prisma.users := Prisma.users db;
                          Prisma.documents := <[fresh := row]> (Prisma.documents db) |}).
  { unfold documents_route.POST.
    destruct (auth.getAuthUser _ _ _ _ _) as [u|]; [|by left].
    destruct (body request) as [b|]; [|by left].
    destruct (documents_route.createDocumentSchema b); [by left|].
    unfold Prisma.document_create. cbn.
    destruct (Prisma.documents db !! fresh) eqn:Hf; [by left|].
    destruct (Prisma.users db !! Prisma.id u); [|by left].
    right. eauto. }
  assert (HU : (PUT now db request i).2 = db
               \/ exists row, is_Some (Prisma.documents db !! i)
                  /\ (PUT now db request i).2
                     = {| Prisma.users := Prisma.users db;
                          Prisma.documents := <[i := row]> (Prisma.documents db) |}).
  { unfold document_route.PUT.
    destruct (auth.getAuthUser _ _ _ _ _) as [u|]; [|by left].
    destruct (body request) as [b|]; [|by left].
    destruct (document_route.updateDocumentSchema b) as [errors|data]; [by left|].
    unfold Prisma.document_findUnique.
    destruct (Prisma.documents db !! i) as [d|] eqn:Hd; [|by left].
    destruct (document_route.not_author_nor_admin d u); [by left|].
    destruct (document_update_found now db i data d Hd) as (row & -> & _).
    right. eauto. }
  assert (HD : (DELETE now db request i).2 = db
               \/ (DELETE now db request i).2
                  = {| Prisma.users := Prisma.users db;
                       Prisma.documents := delete i (Prisma.documents db) |}).
  { unfold document_route.DELETE.
    destruct (auth.getAuthUser _ _ _ _ _) as [u|]; [|by left].
    unfold Prisma.document_findUnique, Prisma.document_delete.
    destruct (Prisma.documents db !! i) as [d|] eqn:Hd; [|by left].
    destruct (document_route.not_author_nor_admin d u); [by left|].
    by right. }
  repeat split.
  - destruct HP as [->|(row & _ & ->)]; done.
  - destruct HU as [->|(row & _ & ->)]; done.
  - destruct HD as [->| ->]; done.
  - intros j Hj. destruct HP as [->|(row & _ & ->)]; [done|]. by apply lookup_insert_ne.
  - intros [d Hd]. destruct HP as [->|(row & Hf & _)]; [done|]. congruence.
  - intros j Hj. destruct HU as [->|(row & _ & ->)]; [done|]. by apply lookup_insert_ne.
  - destruct HU as [->|(row & Hd & ->)]; [done|]. cbn.
    by apply dom_insert_lookup_L.
  - intros j Hj. destruct HD as [->| ->]; [done|]. by apply lookup_delete_ne.
Qed.

(** What a listing holds. *)
Lemma elem_of_document_findMany (db : Prisma.Db) (w : Prisma.WhereInput)
    (doc : Prisma.Document) :
  doc ∈ Prisma.document_findMany db w
  <-> exists k d, Prisma.documents db !! k = Some d
                  /\ Prisma.matches w d = true
                  /\ doc = Prisma.with_author db k d.
Proof.
  unfold Prisma.document_findMany. rewrite list_elem_of_In, in_map_iff. split.
  - intros ([k d] & <- & Hin). apply list_elem_of_In in Hin.
    rewrite merge_sort_Permutation in Hin.
    apply list_elem_of_filter in Hin as [Hm Hin].
    apply elem_of_map_to_list in Hin. exists k, d. done.
  - intros (k & d & Hd & Hm & ->). exists (k, d). split; [done|].
    apply list_elem_of_In. rewrite merge_sort_Permutation.
    apply list_elem_of_filter. split; [done|]. by apply elem_of_map_to_list.
Qed.

(** X6: A document that a create has stored is what a get of its id returns: the
    get answers 200 with the payload of the 201 answer. *)
Theorem create_then_get (now1 now2 : Z) (fresh : string) (db : Prisma.Db)
    (request1 request2 : NextRequest) (u2 : Prisma.SelectedUser) :
  status (POST now1 fresh db request1).1 = 201 ->
  getAuthUser now2 (POST now1 fresh db request1).2 request2 = Some u2 ->
  GET now2 (POST now1 fresh db request1).2 request2 fresh
  = NextResponse_json (payload (POST now1 fresh db request1).1) None.
Proof.
  intros H201. destruct (POST_201 _ _ _ _ H201) as (u & b & data & Hu & Hb & Hs & Hf).
  rewrite (POST_parsed jwt_verify process_env_JWT_SECRET now1 fresh db request1 u b data
             Hu Hb Hs Hf). cbn.
  intros Hu2. unfold document_route.GET, Prisma.document_findUnique.
  rewrite Hu2. cbn. rewrite lookup_insert_eq. done.
Qed.

(** X7: A get that follows an update answered 200 returns the very answer of the
    update. *)
Theorem update_then_get (now1 now2 : Z) (db : Prisma.Db) (request1 request2 : NextRequest)
    (i : string) (u2 : Prisma.SelectedUser) :
  status (PUT now1 db request1 i).1 = 200 ->
  getAuthUser now2 (PUT now1 db request1 i).2 request2 = Some u2 ->
  GET now2 (PUT now1 db request1 i).2 request2 i = (PUT now1 db request1 i).1.
Proof.
  intros H200.
  destruct (PUT_200 jwt_verify process_env_JWT_SECRET now1 db request1 i H200)
    as (o & data & d' & db' & _ & _ & Hw & ->). cbn.
  intros Hu2. unfold document_route.GET, Prisma.document_findUnique. rewrite Hu2.
  destruct (Prisma.documents db !! i) as [d|] eqn:Hd.
  - destruct (document_update_found now1 db i data d Hd) as (row & Hw' & _).
    rewrite Hw' in Hw. injection Hw as <- <-. cbn. rewrite lookup_insert_eq. done.
  - unfold Prisma.document_update in Hw. rewrite Hd in Hw. done.
Qed.

(** X8: After a delete answered 200 the document is gone for every reader: a get
    of its id answers 404 and no listing holds it. *)
Theorem delete_then_gone (now1 : Z) (db : Prisma.Db) (request1 : NextRequest) (i : string) :
  status (DELETE now1 db request1 i).1 = 200 ->
  (forall now2 request2 u2,
     getAuthUser now2 (DELETE now1 db request1 i).2 request2 = Some u2 ->
     GET now2 (DELETE now1 db request1 i).2 request2 i
     = NextResponse_json (ErrorBody "Document not found") (Some 404))
  /\ (forall w doc,
        doc ∈ Prisma.document_findMany (DELETE now1 db request1 i).2 w ->
        Prisma.doc_id doc <> i).
Proof.
  intros H200. rewrite (DELETE_200 _ _ _ _ H200). split.
  - intros now2 request2 u2 Hu2. unfold document_route.GET, Prisma.document_findUnique.
    rewrite Hu2. cbn. rewrite lookup_delete_eq. done.
  - intros w doc Hin. apply elem_of_document_findMany in Hin as (k & d & Hd & _ & ->).
    cbn in *. intros ->. rewrite lookup_delete_eq in Hd. done.
Qed.

(** X9: The 500 answer of the handlers that read one document: an update
    answers 500 exactly when an identified request has a body that is not
    JSON; a get and a delete never do, and neither does a listing. *)
Theorem internal_error_only_on_unreadable_body (now : Z) (db : Prisma.Db)
    (request : NextRequest) (i : string) :
  (status (PUT now db request i).1 = 500
   <-> is_Some (getAuthUser now db request) /\ body request = None)
  /\ status (DELETE now db request i).1 <> 500
  /\ status (GET now db request i) <> 500
  /\ status (LIST now db request) <> 500.
Proof.
  unfold document_route.PUT, document_route.DELETE, document_route.GET,
    documents_route.GET, Prisma.document_findUnique, Prisma.document_update,
    Prisma.document_delete.
  destruct (auth.getAuthUser _ _ _ _ _) as [u|].
  - split; [|split; [|split]].
    + destruct (body request) as [b|]; [|split; eauto].
      split; [|intros [_ ?]; done].
      destruct (document_route.updateDocumentSchema b) as [errors|data]; [done|].
      destruct (Prisma.documents db !! i) as [d|]; [|done].
      destruct (document_route.not_author_nor_admin d u); [done|].
      destruct (Prisma.update_is_empty data); done.
    + destruct (Prisma.documents db !! i) as [d|]; [|done].
      destruct (document_route.not_author_nor_admin d u); done.
    + destruct (Prisma.documents db !! i) as [d|]; done.
    + done.
  - split; [|done]. split; [done|]. intros [[? ?] _]. done.
Qed.

(** X10: A patch that gives none of the four fields, whatever else it names, is
    accepted from the author or an administrator and changes nothing: the
    store is as it was, [updatedAt] included, and the answer carries the
    stored row. *)
Theorem update_without_fields (now : Z) (db : Prisma.Db) (request : NextRequest)
    (i : string) (u : Prisma.SelectedUser) (o : list (string * json))
    (d : Prisma.DocumentRow) :
  getAuthUser now db request = Some u ->
  body request = Some (JObject o) ->
  get_prop "title" o = None -> get_prop "content" o = None ->
  get_prop "status" o = None -> get_prop "priority" o = None ->
  Prisma.documents db !! i = Some d ->
  author_or_admin d u ->
  status (PUT now db request i).1 = 200
  /\ payload (PUT now db request i).1 = DocumentBody (Prisma.with_author db i d)
  /\ (PUT now db request i).2 = db.
Proof.
  intros Hu Hb Ht Hc Hs Hp Hd Ha.
  assert (Hparse : document_route.updateDocumentSchema (JObject o)
                   = inr (Prisma.mkUpdateInput None None None None)).
  { cbn. rewrite Ht, Hc, Hs, Hp. done. }
  apply not_author_nor_admin_false in Ha.
  unfold document_route.PUT, Prisma.document_findUnique, Prisma.document_update.
  rewrite Hu, Hb, Hparse, Hd, Ha. done.
Qed.

End handler_properties.

(** ** Listings *)

Section listing_properties.
Import Json Next lifecycle.

Context (jwt_verify : string -> string -> Z -> auth.VerifyErrors + auth.JWTPayload)
        (process_env_JWT_SECRET : option string).

Local Abbreviation getAuthUser := (auth.getAuthUser jwt_verify process_env_JWT_SECRET).
Local Abbreviation LIST := (documents_route.GET jwt_verify process_env_JWT_SECRET).

#[local] Instance newer_first_total : Total Prisma.newer_first.
Proof. intros a b. unfold Prisma.newer_first. lia. Qed.

#[local] Instance newer_first_transitive : Transitive Prisma.newer_first.
Proof. intros a b c. unfold Prisma.newer_first. lia. Qed.

Lemma map_fmap {A B : Type} (f : A -> B) (l : list A) : map f l = f <$> l.
Proof. induction l; [done|]. cbn. by f_equal. Qed.

Lemma document_findMany_fmap (db : Prisma.Db) (w : Prisma.WhereInput) :
  Prisma.document_findMany db w
  = (fun kd => Prisma.with_author db kd.1 kd.2)
    <$> merge_sort Prisma.newer_first
          (filter (fun kd => Prisma.matches w kd.2 = true)
             (map_to_list (Prisma.documents db))).
Proof. unfold Prisma.document_findMany. apply map_fmap. Qed.

Lemma doc_id_with_author (db : Prisma.Db) (l : list (string * Prisma.DocumentRow)) :
  Prisma.doc_id <$> ((fun kd => Prisma.with_author db kd.1 kd.2) <$> l) = l.*1.
Proof. induction l as [|[k d] l IH]; [done|]. cbn. by f_equal. Qed.

(** The listing an identified request gets. *)
Lemma LIST_identified (now : Z) (db : Prisma.Db) (request : NextRequest)
    (u : Prisma.SelectedUser) :
  getAuthUser now db request = Some u ->
  LIST now db request
  = NextResponse_json
      (DocumentsBody
         (Prisma.document_findMany db (integrity.query_where (searchParams request))))
      None.
Proof. intros Hu. unfold documents_route.GET. rewrite Hu. done. Qed.

(** A non-empty filter is an equality test on its column; an absent or empty
    one is no test. *)
Lemma matches_query_where (q : list (string * string)) (d : Prisma.DocumentRow) :
  Prisma.matches (integrity.query_where q) d = true
  <-> (forall s, searchParams_get "status" q = Some s -> s <> "" -> Prisma.status d = s)
      /\ (forall p, searchParams_get "priority" q = Some p -> p <> "" ->
            Prisma.priority d = p).
Proof.
  unfold Prisma.matches, integrity.query_where, truthy. cbn.
  rewrite andb_true_iff.
  assert (H : forall (o : option string) (x : string),
            match (if match o with Some s => negb (String.eqb s "") | None => false end
                   then o else None) with
            | Some s => String.eqb x s
            | None => true
            end = true
            <-> (forall s, o = Some s -> s <> "" -> x = s)).
  { intros [s|] x; [|split; done].
    destruct (String.eqb_spec s "") as [->|Hne]; cbn.
    - split; [|done]. intros _ s' [= <-] Hn. done.
    - rewrite String.eqb_eq. split.
      + intros -> s' [= <-] _. done.
      + intros Hx. by apply Hx. }
  by rewrite !H.
Qed.

(** X13: The listing is ordered by creation time, the most recent first. *)
Theorem listing_newest_first (now : Z) (db : Prisma.Db) (request : NextRequest)
    (u : Prisma.SelectedUser) :
  getAuthUser now db request = Some u ->
  exists docs,
    payload (LIST now db request) = DocumentsBody docs
    /\ StronglySorted
         (fun a b => Prisma.createdAt (Prisma.doc_row b) <= Prisma.createdAt (Prisma.doc_row a))
         docs.
Proof.
  intros Hu. rewrite (LIST_identified _ _ _ _ Hu). eexists. split; [done|].
  rewrite document_findMany_fmap.
  apply (StronglySorted_fmap _ Prisma.newer_first); [done|].
  apply StronglySorted_merge_sort; apply _.
Qed.

(** X14: The listing holds exactly the stored documents that pass the filters of
    the query, the two filters together when both are given, each with the
    author the store has for it. *)
Theorem listing_holds_the_matching_documents (now : Z) (db : Prisma.Db)
    (request : NextRequest) (u : Prisma.SelectedUser) :
  getAuthUser now db request = Some u ->
  exists docs,
    payload (LIST now db request) = DocumentsBody docs
    /\ forall doc,
         doc ∈ docs
         <-> exists k d,
               Prisma.documents db !! k = Some d
               /\ doc = Prisma.with_author db k d
               /\ (forall s, searchParams_get "status" (searchParams request) = Some s ->
                     s <> "" -> Prisma.status d = s)
               /\ (forall p, searchParams_get "priority" (searchParams request) = Some p ->
                     p <> "" -> Prisma.priority d = p).
Proof.
  intros Hu. rewrite (LIST_identified _ _ _ _ Hu). eexists. split; [done|].
  intros doc. rewrite elem_of_document_findMany. split.
  - intros (k & d & Hd & Hm & ->). apply matches_query_where in Hm as [Hs Hp].
    exists k, d. done.
  - intros (k & d & Hd & -> & Hs & Hp). exists k, d. split; [done|].
    split; [|done]. by apply matches_query_where.
Qed.

(** X15: No document is listed twice, and a listing whose query gives no status
    and no priority, or gives them empty, holds as many documents as the
    store. *)
Theorem listing_without_repeats (now : Z) (db : Prisma.Db) (request : NextRequest)
    (u : Prisma.SelectedUser) :
  getAuthUser now db request = Some u ->
  exists docs,
    payload (LIST now db request) = DocumentsBody docs
    /\ NoDup (Prisma.doc_id <$> docs)
    /\ (truthy (searchParams_get "status" (searchParams request)) = false ->
        truthy (searchParams_get "priority" (searchParams request)) = false ->
        length docs = size (Prisma.documents db)).
Proof.
  intros Hu. rewrite (LIST_identified _ _ _ _ Hu). eexists. split; [done|].
  rewrite document_findMany_fmap. split.
  - rewrite doc_id_with_author, merge_sort_Permutation.
    apply (NoDup_fmap_fst _).
    + intros k d1 d2 H1 H2.
      apply list_elem_of_filter in H1 as [_ H1], H2 as [_ H2].
      apply elem_of_map_to_list in H1, H2. congruence.
    + apply NoDup_filter, NoDup_map_to_list.
  - intros Hs Hp. rewrite length_fmap, merge_sort_Permutation.
    unfold integrity.query_where. rewrite Hs, Hp.
    rewrite <- length_map_to_list. f_equal.
    induction (map_to_list (Prisma.documents db)) as [|x l IH]; [done|].
    rewrite filter_cons_True; [by f_equal | done].
Qed.

End listing_properties.

(** ** The two schemas side by side, and what a rejection reports *)

Section schema_properties.
Import Json Zod lifecycle.

(** X16: A body is accepted by the create schema exactly when the update schema
    accepts it with a title and a content, and the two parses then agree on
    the four fields. *)
Theorem create_schema_is_update_schema_with_title_and_content (b : json)
    (data : documents_route.CreateData) :
  documents_route.createDocumentSchema b = inr data
  <-> document_route.updateDocumentSchema b
      = inr {| Prisma.update_title := Some (documents_route.title data);
               Prisma.update_content := Some (documents_route.content data);
               Prisma.update_status := documents_route.status data;
               Prisma.update_priority := documents_route.priority data |}.
Proof.
  rewrite createDocumentSchema_inr, updateDocumentSchema_inr. cbn. split.
  - intros (o & -> & [Ht Hlt] & [Hc Hlc] & Hs & Hp). exists o.
    split; [done|]. split; [|split; [|done]].
    + apply optional_inr. rewrite Ht. eexists. split; [done|].
      rewrite <- Ht. by apply title_schema_inr.
    + apply optional_inr. rewrite Hc. eexists. split; [done|].
      rewrite <- Hc. by apply content_schema_inr.
  - intros (o & -> & Ht & Hc & Hs & Hp). exists o. split; [done|].
    apply optional_inr in Ht, Hc.
    destruct (get_prop "title" o) as [vt|]; [|done].
    destruct (get_prop "content" o) as [vc|]; [|done].
    destruct Ht as (t & [= <-] & Ht), Hc as (c & [= <-] & Hc).
    apply title_schema_inr in Ht as [-> ?]. apply content_schema_inr in Hc as [-> ?].
    done.
Qed.

(** The issues a member schema reports are never an empty list. *)
Lemma z_string_reports (checks : list StringCheck) (v : option json)
    (l : list (ZodIssueCode * option string)) :
  z_string checks v = inl l -> l <> [].
Proof.
  unfold z_string. destruct v as [[]|]; try (intros [= <-]; done).
  destruct (concat _); [done|]. intros [= <-]. done.
Qed.

Lemma z_enum_reports (values : list string) (v : option json)
    (l : list (ZodIssueCode * option string)) :
  z_enum values v = inl l -> l <> [].
Proof.
  unfold z_enum. destruct v as [[]|]; try (intros [= <-]; done).
  destruct (existsb _ _); [done|]. intros [= <-]. done.
Qed.

Lemma optional_reports {A : Type} (inner : option json -> parsed A) (v : option json)
    (l : list (ZodIssueCode * option string)) :
  (forall l', inner v = inl l' -> l' <> []) ->
  optional inner v = inl l -> l <> [].
Proof.
  intros Hi. unfold optional. destruct v; [|done].
  destruct (inner _) eqn:E; [|done]. intros [= <-]. by apply Hi.
Qed.

(** An issue of the member [key] is an issue with the path [[key]], and there
    is one exactly when the member did not parse. *)
Lemma issues_at_path {A : Type} (key : string) (r : parsed A) (e : ZodIssue) :
  e ∈ issues_at key r -> path e = [key].
Proof.
  destruct r as [l|a]; cbn; [|by intros ?%elem_of_nil].
  rewrite list_elem_of_In, in_map_iff. intros (x & <- & _). done.
Qed.

Lemma issues_at_some {A : Type} (key : string) (r : parsed A) :
  (forall l, r = inl l -> l <> []) ->
  (exists e, e ∈ issues_at key r) <-> ~ exists a, r = inr a.
Proof.
  intros Hne. destruct r as [l|a]; cbn.
  - split; [intros _ [a ?]; done|]. intros _.
    destruct l as [|x l]; [by destruct (Hne [] eq_refl)|].
    eexists. cbn. left.
  - split; [|intros []; eauto]. intros [e He]. by apply elem_of_nil in He.
Qed.

(** The issue list of four members holds an issue under a key exactly when
    the member of that key did not parse. *)
Lemma member_issue_iff {A B C D : Type} (t : parsed A) (c : parsed B) (s : parsed C)
    (p : parsed D) :
  (forall l, t = inl l -> l <> []) -> (forall l, c = inl l -> l <> []) ->
  (forall l, s = inl l -> l <> []) -> (forall l, p = inl l -> l <> []) ->
  let errors := (issues_at "title" t ++ issues_at "content" c
                 ++ issues_at "status" s ++ issues_at "priority" p)%list in
  ((exists e, e ∈ errors /\ path e = ["title"]) <-> ~ exists a, t = inr a)
  /\ ((exists e, e ∈ errors /\ path e = ["content"]) <-> ~ exists a, c = inr a)
  /\ ((exists e, e ∈ errors /\ path e = ["status"]) <-> ~ exists a, s = inr a)
  /\ ((exists e, e ∈ errors /\ path e = ["priority"]) <-> ~ exists a, p = inr a).
Proof.
  intros Ht Hc Hs Hp errors. subst errors.
  assert (Hin : forall e,
            e ∈ (issues_at "title" t ++ issues_at "content" c
                 ++ issues_at "status" s ++ issues_at "priority" p)%list
            <-> e ∈ issues_at "title" t \/ e ∈ issues_at "content" c
                \/ e ∈ issues_at "status" s \/ e ∈ issues_at "priority" p).
  { intros e. rewrite !elem_of_app. done. }
  assert (Hkey : forall k e,
            e ∈ (issues_at "title" t ++ issues_at "content" c
                 ++ issues_at "status" s ++ issues_at "priority" p)%list ->
            path e = [k] ->
            (k = "title" /\ e ∈ issues_at "title" t)
            \/ (k = "content" /\ e ∈ issues_at "content" c)
            \/ (k = "status" /\ e ∈ issues_at "status" s)
            \/ (k = "priority" /\ e ∈ issues_at "priority" p)).
  { intros k e He Hpath. apply Hin in He.
    destruct He as [He|[He|[He|He]]];
      pose proof (issues_at_path _ _ _ He) as Hk;
      rewrite Hpath in Hk; injection Hk as ->; eauto 10. }
  repeat split.
  - intros (e & He & Hpath). apply (issues_at_some "title"); [done|].
    destruct (Hkey _ _ He Hpath) as [[_ ?]|[[? _]|[[? _]|[? _]]]]; try done. eauto.
  - intros Hn. apply (issues_at_some "title") in Hn as [e He]; [|done].
    exists e. split; [apply Hin; eauto | by eapply issues_at_path].
  - intros (e & He & Hpath). apply (issues_at_some "content"); [done|].
    destruct (Hkey _ _ He Hpath) as [[? _]|[[_ ?]|[[? _]|[? _]]]]; try done. eauto.
  - intros Hn. apply (issues_at_some "content") in Hn as [e He]; [|done].
    exists e. split; [apply Hin; eauto | by eapply issues_at_path].
  - intros (e & He & Hpath). apply (issues_at_some "status"); [done|].
    destruct (Hkey _ _ He Hpath) as [[? _]|[[? _]|[[_ ?]|[? _]]]]; try done. eauto.
  - intros Hn. apply (issues_at_some "status") in Hn as [e He]; [|done].
    exists e. split; [apply Hin; eauto | by eapply issues_at_path].
  - intros (e & He & Hpath). apply (issues_at_some "priority"); [done|].
    destruct (Hkey _ _ He Hpath) as [[? _]|[[? _]|[[? _]|[_ ?]]]]; try done. eauto.
  - intros Hn. apply (issues_at_some "priority") in Hn as [e He]; [|done].
    exists e. split; [apply Hin; eauto 10 | by eapply issues_at_path].
Qed.

(** X17: A rejected create body that is an object is reported member by member:
    the issues hold one under [title], [content], [status] or [priority]
    exactly when that member is the invalid one, and there is at least one
    issue. *)
Theorem create_issues_name_the_invalid_members (o : list (string * json))
    (errors : list ZodIssue) :
  documents_route.createDocumentSchema (JObject o) = inl errors ->
  errors <> []
  /\ ((exists e, e ∈ errors /\ path e = ["title"])
      <-> ~ exists v, get_prop "title" o = Some v /\ valid_title v)
  /\ ((exists e, e ∈ errors /\ path e = ["content"])
      <-> ~ exists v, get_prop "content" o = Some v /\ valid_content v)
  /\ ((exists e, e ∈ errors /\ path e = ["status"])
      <-> exists v, get_prop "status" o = Some v /\ ~ in_enum statuses v)
  /\ ((exists e, e ∈ errors /\ path e = ["priority"])
      <-> exists v, get_prop "priority" o = Some v /\ ~ in_enum priorities v).
Proof.
  cbn [documents_route.createDocumentSchema].
  set (t := z_string _ (get_prop "title" o)).
  set (c := z_string _ (get_prop "content" o)).
  set (s := optional _ (get_prop "status" o)).
  set (p := optional _ (get_prop "priority" o)).
  intros He.
  assert (Herr : errors = (issues_at "title" t ++ issues_at "content" c
                           ++ issues_at "status" s ++ issues_at "priority" p)%list
                 /\ ~ ((exists a, t = inr a) /\ (exists a, c = inr a)
                       /\ (exists a, s = inr a) /\ (exists a, p = inr a))).
  { destruct t, c, s, p; try (injection He as <-; split; [done|];
      intros ([? ?] & [? ?] & [? ?] & [? ?]); done). done. }
  destruct Herr as [-> Hsome].
  destruct (member_issue_iff t c s p) as (Mt & Mc & Ms & Mp).
  { intros l. apply z_string_reports. }
  { intros l. apply z_string_reports. }
  { intros l. apply optional_reports. intros l'. apply z_enum_reports. }
  { intros l. apply optional_reports. intros l'. apply z_enum_reports. }
  assert (Tt : (exists a, t = inr a) <-> exists v, get_prop "title" o = Some v /\ valid_title v).
  { subst t. unfold valid_title. split.
    - intros [a Ha]. apply title_schema_inr in Ha as [-> ?]. eauto.
    - intros (v & Hv & a & -> & ?). exists a. by apply title_schema_inr. }
  assert (Tc : (exists a, c = inr a)
               <-> exists v, get_prop "content" o = Some v /\ valid_content v).
  { subst c. unfold valid_content. split.
    - intros [a Ha]. apply content_schema_inr in Ha as [-> ?]. eauto.
    - intros (v & Hv & a & -> & ?). exists a. by apply content_schema_inr. }
  assert (Te : forall values v,
            (~ exists a, optional (z_enum values) v = inr a)
            <-> exists w, v = Some w /\ ~ in_enum values w).
  { intros values v. rewrite optional_enum_valid. split.
    - intros Hn. destruct v as [w|]; [|destruct Hn; done].
      exists w. split; [done|]. intros Hin. apply Hn. by intros ? [= <-].
    - intros (w & -> & Hn) Hall. apply Hn, Hall. done. }
  rewrite Mt, Mc, Ms, Mp, Tt, Tc. subst s p. rewrite !Te.
  split; [|done].
  intros Hnil. apply Hsome.
  assert (Hno : forall k, ~ exists e, e ∈ ([] : list ZodIssue) /\ path e = [k]).
  { intros k (e & He' & _). by apply elem_of_nil in He'. }
  rewrite Hnil in Mt, Mc, Ms, Mp.
  repeat split.
  - destruct t; [|eauto]. exfalso. apply (Hno "title"), Mt. intros [? ?]. done.
  - destruct c; [|eauto]. exfalso. apply (Hno "content"), Mc. intros [? ?]. done.
  - destruct (optional _ (get_prop "status" o)); [|eauto].
    exfalso. apply (Hno "status"), Ms. intros [? ?]. done.
  - destruct (optional _ (get_prop "priority" o)); [|eauto].
    exfalso. apply (Hno "priority"), Mp. intros [? ?]. done.
Qed.

(** An optional member fails to parse exactly when it is given and is not
    valid. *)
Lemma optional_fails_iff {A : Type} (inner : option json -> parsed A) (valid : json -> Prop)
    (v : option json) :
  ((exists r, optional inner v = inr r) <-> (forall w, v = Some w -> valid w)) ->
  (~ (exists r, optional inner v = inr r)) <-> exists w, v = Some w /\ ~ valid w.
Proof.
  intros ->. split.
  - intros Hn. destruct v as [w|]; [|destruct Hn; done].
    exists w. split; [done|]. intros Hin. apply Hn. by intros ? [= <-].
  - intros (w & -> & Hn) Hall. apply Hn, Hall. done.
Qed.

(** X18: A rejected update patch that is an object is reported member by member:
    the issues hold one under [title], [content], [status] or [priority]
    exactly when that member is given and is not valid, and there is at least
    one issue. *)
Theorem update_issues_name_the_invalid_members (o : list (string * json))
    (errors : list ZodIssue) :
  document_route.updateDocumentSchema (JObject o) = inl errors ->
  errors <> []
  /\ ((exists e, e ∈ errors /\ path e = ["title"])
      <-> exists v, get_prop "title" o = Some v /\ ~ valid_title v)
  /\ ((exists e, e ∈ errors /\ path e = ["content"])
      <-> exists v, get_prop "content" o = Some v /\ ~ valid_content v)
  /\ ((exists e, e ∈ errors /\ path e = ["status"])
      <-> exists v, get_prop "status" o = Some v /\ ~ in_enum statuses v)
  /\ ((exists e, e ∈ errors /\ path e = ["priority"])
      <-> exists v, get_prop "priority" o = Some v /\ ~ in_enum priorities v).
Proof.
  cbn [document_route.updateDocumentSchema].
  set (t := optional (z_string _) (get_prop "title" o)).
  set (c := optional (z_string _) (get_prop "content" o)).
  set (s := optional _ (get_prop "status" o)).
  set (p := optional _ (get_prop "priority" o)).
  intros He.
  assert (Herr : errors = (issues_at "title" t ++ issues_at "content" c
                           ++ issues_at "status" s ++ issues_at "priority" p)%list
                 /\ ~ ((exists a, t = inr a) /\ (exists a, c = inr a)
                       /\ (exists a, s = inr a) /\ (exists a, p = inr a))).
  { destruct t, c, s, p; try (injection He as <-; split; [done|];
      intros ([? ?] & [? ?] & [? ?] & [? ?]); done). done. }
  destruct Herr as [-> Hsome].
  destruct (member_issue_iff t c s p) as (Mt & Mc & Ms & Mp).
  { intros l. apply optional_reports. intros l'. apply z_string_reports. }
  { intros l. apply optional_reports. intros l'. apply z_string_reports. }
  { intros l. apply optional_reports. intros l'. apply z_enum_reports. }
  { intros l. apply optional_reports. intros l'. apply z_enum_reports. }
  pose proof (optional_fails_iff _ valid_title _
                (optional_title_valid (get_prop "title" o))) as Tt.
  pose proof (optional_fails_iff _ valid_content _
                (optional_content_valid (get_prop "content" o))) as Tc.
  pose proof (optional_fails_iff _ (in_enum statuses) _
                (optional_enum_valid ["TODO"; "IN_PROGRESS"; "DONE"]
                   (get_prop "status" o))) as Ts.
  pose proof (optional_fails_iff _ (in_enum priorities) _
                (optional_enum_valid ["LOW"; "MEDIUM"; "HIGH"; "URGENT"]
                   (get_prop "priority" o))) as Tp.
  fold t in Tt. fold c in Tc. fold s in Ts. fold p in Tp.
  rewrite Mt, Mc, Ms, Mp, Tt, Tc, Ts, Tp.
  split; [|done].
  intros Hnil. apply Hsome.
  assert (Hno : forall k, ~ exists e, e ∈ ([] : list ZodIssue) /\ path e = [k]).
  { intros k (e & He' & _). by apply elem_of_nil in He'. }
  rewrite Hnil in Mt, Mc, Ms, Mp.
  repeat split.
  - destruct t; [|eauto]. exfalso. apply (Hno "title"), Mt. intros [? ?]. done.
  - destruct c; [|eauto]. exfalso. apply (Hno "content"), Mc. intros [? ?]. done.
  - destruct s; [|eauto]. exfalso. apply (Hno "status"), Ms. intros [? ?]. done.
  - destruct p; [|eauto]. exfalso. apply (Hno "priority"), Mp. intros [? ?]. done.
Qed.

End schema_properties.

(** ** Documents and their authors *)

Section author_properties.
Import Json Next lifecycle integrity.

Context (jwt_verify : string -> string -> Z -> auth.VerifyErrors + auth.JWTPayload)
        (process_env_JWT_SECRET : option string).

Local Abbreviation getAuthUser := (auth.getAuthUser jwt_verify process_env_JWT_SECRET).
Local Abbreviation LIST := (documents_route.GET jwt_verify process_env_JWT_SECRET).
Local Abbreviation POST := (documents_route.POST jwt_verify process_env_JWT_SECRET).
Local Abbreviation GET := (document_route.GET jwt_verify process_env_JWT_SECRET).
Local Abbreviation PUT := (document_route.PUT jwt_verify process_env_JWT_SECRET).
Local Abbreviation DELETE := (document_route.DELETE jwt_verify process_env_JWT_SECRET).

Lemma authored_insert (db : Prisma.Db) (i : string) (d : Prisma.DocumentRow) :
  authored db ->
  is_Some (Prisma.users db !! Prisma.authorId d) ->
  authored {| Prisma.users := Prisma.users db;
              Prisma.documents := <[i := d]> (Prisma.documents db) |}.
Proof.
  intros Hdb Hd j d'. cbn. rewrite lookup_insert. case_decide.
  - intros [= <-]. done.
  - apply Hdb.
Qed.

(** The author a document is returned with, in a store that keeps the foreign
    key: the row of its [authorId] without the password. *)
Lemma with_author_authored (db : Prisma.Db) (k : string) (d : Prisma.DocumentRow) :
  is_Some (Prisma.users db !! Prisma.authorId d) ->
  exists row,
    Prisma.users db !! Prisma.authorId d = Some row
    /\ Prisma.doc_author (Prisma.with_author db k d)
       = Some (Prisma.select_user (Prisma.authorId d) row).
Proof.
  intros [row Hrow]. exists row. split; [done|].
  unfold Prisma.with_author, Prisma.user_findUnique. cbn. rewrite Hrow. done.
Qed.

(** X20: The handlers keep the foreign key: in a store where every document has
    its author among the users, it still has after a create, an update or a
    delete, whatever the request. *)
Theorem handlers_keep_authored (now : Z) (fresh i : string) (db : Prisma.Db)
    (request : NextRequest) :
  authored db ->
  authored (POST now fresh db request).2
  /\ authored (PUT now db request i).2
  /\ authored (DELETE now db request i).2.
Proof.
  intros Hdb. split; [|split].
  - unfold documents_route.POST.
    destruct (auth.getAuthUser _ _ _ _ _) as [u|] eqn:Hu; [|done].
    destruct (body request) as [b|]; [|done].
    destruct (documents_route.createDocumentSchema b) as [errors|data]; [done|].
    unfold Prisma.document_create. cbn.
    destruct (Prisma.documents db !! fresh); [done|].
    destruct (Prisma.users db !! Prisma.id u) eqn:Hrow; [|done]. cbn.
    apply authored_insert; [done|]. cbn. rewrite Hrow. eauto.
  - unfold document_route.PUT.
    destruct (auth.getAuthUser _ _ _ _ _) as [u|]; [|done].
    destruct (body request) as [b|]; [|done].
    destruct (document_route.updateDocumentSchema b) as [errors|data]; [done|].
    unfold Prisma.document_findUnique.
    destruct (Prisma.documents db !! i) as [d|] eqn:Hd; [|done].
    destruct (document_route.not_author_nor_admin d u); [done|].
    destruct (document_update_found now db i data d Hd) as (row & -> & ->). cbn.
    apply authored_insert; [done|]. cbn. by eapply Hdb.
  - unfold document_route.DELETE.
    destruct (auth.getAuthUser _ _ _ _ _) as [u|]; [|done].
    unfold Prisma.document_findUnique, Prisma.document_delete.
    destruct (Prisma.documents db !! i) as [d|] eqn:Hd; [|done].
    destruct (document_route.not_author_nor_admin d u); [done|]. cbn.
    intros j d'. cbn. rewrite lookup_delete. case_decide; [done|]. apply Hdb.
Qed.

(** X21: In a store that keeps the foreign key, every document a get or a listing
    returns comes with its author: the user row of its [authorId], reduced to
    id, name, email and role. *)
Theorem reads_return_the_author (now : Z) (i : string) (db : Prisma.Db)
    (request : NextRequest) (doc : Prisma.Document) :
  authored db ->
  payload (GET now db request i) = DocumentBody doc
  \/ (exists docs, payload (LIST now db request) = DocumentsBody docs /\ doc ∈ docs) ->
  exists row,
    Prisma.users db !! Prisma.authorId (Prisma.doc_row doc) = Some row
    /\ Prisma.doc_author doc
       = Some (Prisma.select_user (Prisma.authorId (Prisma.doc_row doc)) row).
Proof.
  intros Hdb [Hget|(docs & Hlist & Hin)].
  - unfold document_route.GET, Prisma.document_findUnique in Hget.
    destruct (auth.getAuthUser _ _ _ _ _) as [u|]; [|done].
    destruct (Prisma.documents db !! i) as [d|] eqn:Hd; [|done].
    injection Hget as <-. apply with_author_authored. by eapply Hdb.
  - unfold documents_route.GET in Hlist.
    destruct (auth.getAuthUser _ _ _ _ _) as [u|]; [|done].
    injection Hlist as <-.
    apply elem_of_document_findMany in Hin as (k & d & Hd & _ & ->).
    apply with_author_authored. by eapply Hdb.
Qed.

(** X22: The document of a 201 answer has the generated id and names the requester
    as its author, with the name, email and role the store has for the
    requester. *)
Theorem created_document_names_the_requester (now : Z) (fresh : string) (db : Prisma.Db)
    (request : NextRequest) (u : Prisma.SelectedUser) :
  getAuthUser now db request = Some u ->
  status (POST now fresh db request).1 = 201 ->
  exists doc,
    payload (POST now fresh db request).1 = DocumentBody doc
    /\ Prisma.doc_id doc = fresh
    /\ Prisma.authorId (Prisma.doc_row doc) = Prisma.id u
    /\ Prisma.doc_author doc = Some u.
Proof.
  intros Hu H201.
  destruct (POST_201 jwt_verify process_env_JWT_SECRET _ _ _ _ H201)
    as (u' & b & data & Hu' & Hb & Hs & Hf).
  assert (u' = u) as -> by congruence.
  rewrite (POST_parsed jwt_verify process_env_JWT_SECRET now fresh db request u b data
             Hu Hb Hs Hf). cbn.
  eexists. split; [done|]. cbn. split; [done|]. split; [done|].
  destruct (getAuthUser_row _ _ _ _ _ _ Hu) as (row & Hrow & Heq).
  unfold Prisma.user_findUnique. cbn. rewrite Hrow. cbn. congruence.
Qed.

End author_properties.

(** ** The board of the dashboard *)

Section board_properties.
Import Json Next lifecycle dashboard.

Context (jwt_verify : string -> string -> Z -> auth.VerifyErrors + auth.JWTPayload)
        (process_env_JWT_SECRET : option string).

Local Abbreviation getAuthUser := (auth.getAuthUser jwt_verify process_env_JWT_SECRET).
Local Abbreviation PUT := (document_route.PUT jwt_verify process_env_JWT_SECRET).

Lemma column_elem_of (s : string) (documents : list Prisma.Document)
    (doc : Prisma.Document) :
  doc ∈ List.filter (fun doc => String.eqb (doc_status doc) s) documents
  <-> doc ∈ documents /\ doc_status doc = s.
Proof. rewrite !list_elem_of_In, filter_In, String.eqb_eq. done. Qed.

(** X23: The three columns split the documents: a document whose status is one of
    the three is shown in exactly the column of its status, and one whose
    status is anything else is shown in none.  So when every status is of the
    enumeration the columns together are the documents, rearranged. *)
Theorem columns_split_the_documents (documents : list Prisma.Document) :
  (forall doc, doc ∈ todoDocuments documents
               <-> doc ∈ documents /\ doc_status doc = "TODO")
  /\ (forall doc, doc ∈ inProgressDocuments documents
                  <-> doc ∈ documents /\ doc_status doc = "IN_PROGRESS")
  /\ (forall doc, doc ∈ doneDocuments documents
                  <-> doc ∈ documents /\ doc_status doc = "DONE")
  /\ (Forall (fun doc => doc_status doc ∈ statuses) documents ->
      todoDocuments documents ++ inProgressDocuments documents ++ doneDocuments documents
      ≡ₚ documents).
Proof.
  unfold todoDocuments, inProgressDocuments, doneDocuments.
  split; [intros doc; apply column_elem_of|].
  split; [intros doc; apply column_elem_of|].
  split; [intros doc; apply column_elem_of|].
  induction 1 as [|doc l Hdoc _ IH]; [done|].
  unfold statuses in Hdoc. rewrite !elem_of_cons in Hdoc.
  cbn [List.filter].
  destruct Hdoc as [E|[E|[E|E]]]; [| | |by apply elem_of_nil in E]; rewrite E; cbn.
  - by constructor.
  - rewrite <- Permutation_middle. by constructor.
  - rewrite (app_assoc _ _ (doc :: _)), <- Permutation_middle, <- app_assoc.
    by constructor.
Qed.

(** X24: Every button of a card asks for a status of the enumeration other than
    the one the card has, TODO and DONE are never one click apart, and the
    body the click sends is a valid patch. *)
Theorem buttons_ask_for_a_neighbouring_status (status label target : string) :
  (label, target) ∈ buttons status ->
  status ∈ statuses
  /\ target ∈ statuses
  /\ target <> status
  /\ (status = "IN_PROGRESS" \/ target = "IN_PROGRESS")
  /\ valid_patch_body (status_patch target).
Proof.
  unfold buttons, statuses.
  destruct (String.eqb_spec status "TODO") as [->|_];
    [|destruct (String.eqb_spec status "IN_PROGRESS") as [->|_];
      [|destruct (String.eqb_spec status "DONE") as [->|_]]];
    rewrite ?elem_of_cons, ?elem_of_nil; intros Hin;
    repeat (destruct Hin as [Hin|Hin]); try done;
    injection Hin as -> ->;
    (repeat split; [set_solver | set_solver | done | eauto |
       apply updateDocumentSchema_valid; eexists; vm_compute; reflexivity]).
Qed.

(** X25: What the list of the page becomes when a card is replaced: its length
    and order stay; the cards of other ids stay; every card of the id is the
    new document; and a list without the id is left as it is. *)
Theorem replaceDocument_replaces_by_id (id : string) (updated : Prisma.Document)
    (documents : list Prisma.Document) :
  length (replaceDocument id updated documents) = length documents
  /\ (forall n doc, documents !! n = Some doc ->
        replaceDocument id updated documents !! n
        = Some (if String.eqb (Prisma.doc_id doc) id then updated else doc))
  /\ (Prisma.doc_id updated = id ->
      Prisma.doc_id <$> replaceDocument id updated documents = Prisma.doc_id <$> documents)
  /\ (id ∉ Prisma.doc_id <$> documents -> replaceDocument id updated documents = documents).
Proof.
  unfold replaceDocument. rewrite map_fmap. split; [apply length_fmap|].
  split; [|split].
  - intros n doc Hn. rewrite list_lookup_fmap, Hn. done.
  - intros Hid. rewrite <- list_fmap_compose. apply list_fmap_ext.
    intros n doc _. cbn. destruct (String.eqb_spec (Prisma.doc_id doc) id); congruence.
  - intros Hnot. rewrite <- (list_fmap_id documents) at 2. apply list_fmap_ext.
    intros n doc Hn. cbn. destruct (String.eqb_spec (Prisma.doc_id doc) id) as [E|]; [|done].
    destruct Hnot. rewrite <- E. apply list_elem_of_fmap. exists doc.
    split; [done|]. by eapply list_elem_of_lookup_2.
Qed.


End board_properties.

(** ** Which answer a request gets *)

Section answer_tables.
Import Json Next lifecycle.

Context (jwt_verify : string -> string -> Z -> auth.VerifyErrors + auth.JWTPayload)
        (process_env_JWT_SECRET : option string).

Local Abbreviation getAuthUser := (auth.getAuthUser jwt_verify process_env_JWT_SECRET).
Local Abbreviation GET := (document_route.GET jwt_verify process_env_JWT_SECRET).
Local Abbreviation PUT := (document_route.PUT jwt_verify process_env_JWT_SECRET).
Local Abbreviation DELETE := (document_route.DELETE jwt_verify process_env_JWT_SECRET).

Local Ltac settle :=
  intros;
  repeat match goal with
         | H : ex _ |- _ => destruct H
         | H : _ /\ _ |- _ => destruct H
         | H : is_Some _ |- _ => destruct H
         end;
  first [congruence | tauto].

Local Ltac table := repeat split; first [done | settle | eauto 10].

(** X11: The checks of an update come in a fixed order, and each status tells
    which one stopped it: 400 for an identified request with a JSON body that
    is not a valid patch; 404 for a valid patch of an id without a row; 403
    for a valid patch of a stored document by someone who is neither its
    author nor an administrator; 200 for a valid patch of a stored document
    by its author or an administrator. *)
Theorem update_answer_tells_the_check (now : Z) (db : Prisma.Db) (request : NextRequest)
    (i : string) :
  (status (PUT now db request i).1 = 400
   <-> exists u b, getAuthUser now db request = Some u /\ body request = Some b
                   /\ ~ valid_patch_body b)
  /\ (status (PUT now db request i).1 = 404
      <-> exists u b, getAuthUser now db request = Some u /\ body request = Some b
                      /\ valid_patch_body b /\ Prisma.documents db !! i = None)
  /\ (status (PUT now db request i).1 = 403
      <-> exists u b d, getAuthUser now db request = Some u /\ body request = Some b
                        /\ valid_patch_body b /\ Prisma.documents db !! i = Some d
                        /\ ~ author_or_admin d u)
  /\ (status (PUT now db request i).1 = 200
      <-> exists u b d, getAuthUser now db request = Some u /\ body request = Some b
                        /\ valid_patch_body b /\ Prisma.documents db !! i = Some d
                        /\ author_or_admin d u).
Proof.
  unfold document_route.PUT, Prisma.document_findUnique, Prisma.document_update.
  destruct (auth.getAuthUser _ _ _ _ _) as [u|]; [|table].
  destruct (body request) as [b|]; [|table].
  destruct (document_route.updateDocumentSchema b) as [errors|data] eqn:Hs.
  { assert (Hn : ~ valid_patch_body b).
    { intros Hv. apply updateDocumentSchema_valid in Hv as [? ?]. congruence. }
    table. }
  assert (Hv : valid_patch_body b) by (apply updateDocumentSchema_valid; eauto).
  destruct (Prisma.documents db !! i) as [d|]; [|table].
  destruct (document_route.not_author_nor_admin d u) eqn:Hn.
  - assert (~ author_or_admin d u).
    { intros Ha. apply not_author_nor_admin_false in Ha. congruence. }
    table.
  - apply not_author_nor_admin_false in Hn.
    destruct (Prisma.update_is_empty data); table.
Qed.

(** X12: The same for a get and a delete, which read no body: 404 for an
    identified request of an id without a row; for a delete, 403 when the
    requester is neither the author nor an administrator; 200 otherwise, a get
    then carrying the stored row. *)
Theorem get_and_delete_answer_tell_the_check (now : Z) (db : Prisma.Db)
    (request : NextRequest) (i : string) :
  (status (GET now db request i) = 404
   <-> is_Some (getAuthUser now db request) /\ Prisma.documents db !! i = None)
  /\ (status (GET now db request i) = 200
      <-> exists u d, getAuthUser now db request = Some u
                      /\ Prisma.documents db !! i = Some d
                      /\ payload (GET now db request i)
                         = DocumentBody (Prisma.with_author db i d))
  /\ (status (DELETE now db request i).1 = 404
      <-> is_Some (getAuthUser now db request) /\ Prisma.documents db !! i = None)
  /\ (status (DELETE now db request i).1 = 403
      <-> exists u d, getAuthUser now db request = Some u
                      /\ Prisma.documents db !! i = Some d /\ ~ author_or_admin d u)
  /\ (status (DELETE now db request i).1 = 200
      <-> exists u d, getAuthUser now db request = Some u
                      /\ Prisma.documents db !! i = Some d /\ author_or_admin d u).
Proof.
  unfold document_route.GET, document_route.DELETE, Prisma.document_findUnique,
    Prisma.document_delete.
  destruct (auth.getAuthUser _ _ _ _ _) as [u|]; [|table].
  destruct (Prisma.documents db !! i) as [d|]; [|table].
  destruct (document_route.not_author_nor_admin d u) eqn:Hn.
  - assert (~ author_or_admin d u).
    { intros Ha. apply not_author_nor_admin_false in Ha. congruence. }
    table.
  - apply not_author_nor_admin_false in Hn. table.
Qed.

End answer_tables.

(** ** Further runs on the sample deployment *)

Section further_runs.
Import Json Next lifecycle integrity dashboard.

Local Abbreviation getAuthUser := (auth.getAuthUser sample.jwt_verify sample.env).
Local Abbreviation LIST := (documents_route.GET sample.jwt_verify sample.env).
Local Abbreviation POST := (documents_route.POST sample.jwt_verify sample.env).
Local Abbreviation GET := (document_route.GET sample.jwt_verify sample.env).
Local Abbreviation PUT := (document_route.PUT sample.jwt_verify sample.env).
Local Abbreviation DELETE := (document_route.DELETE sample.jwt_verify sample.env).

Lemma sample_rows (i : string) (d : Prisma.DocumentRow) :
  Prisma.documents sample.db !! i = Some d -> i = "doc-1" /\ d = sample.checklist.
Proof.
  unfold sample.db. cbn. intros H.
  apply lookup_insert_Some in H as [[<- <-]|[_ H]]; [done|].
  by rewrite lookup_empty in H.
Qed.

Lemma sample_enumerated : enumerated sample.db.
Proof.
  intros i d H. apply sample_rows in H as [_ ->]. unfold statuses, priorities. cbn.
  split; set_solver.
Qed.

Lemma sample_authored : authored sample.db.
Proof. intros i d H. apply sample_rows in H as [_ ->]. vm_compute. eauto. Qed.

(** Beto is made an administrator: his next request resolves to the new role
    with the token he already has. *)
Lemma promoted_user_run :
  getAuthUser 2000 sample.db (sample.request "token-of-beto" None []) = Some sample.beto
  /\ getAuthUser 2000
       {| Prisma.users :=
            <[2 := Prisma.mkUserRow "Beto" "beto@localhost" "$2a$12$beto" "ADMIN" 20 30]>
              (Prisma.users sample.db);
          Prisma.documents := Prisma.documents sample.db |}
       (sample.request "token-of-beto" None [])
     = Some (Prisma.mkSelectedUser 2 "Beto" "beto@localhost" "ADMIN").
Proof.
  assert (Hu : getAuthUser 2000 sample.db (sample.request "token-of-beto" None [])
               = Some sample.beto) by (vm_compute; reflexivity).
  split; [exact Hu|].
  rewrite (getAuthUser_follows_store sample.jwt_verify sample.env 2000 sample.db _
             sample.beto _ Hu).
  vm_compute. reflexivity.
Defined.

(** Ana creates the guide; Beto's get of the new id returns it. *)
Lemma create_then_get_run :
  status (POST 2000 "doc-2" sample.db
            (sample.request "token-of-ana" (Some sample.guide_body) [])).1 = 201
  /\ status (GET 3000
              (POST 2000 "doc-2" sample.db
                 (sample.request "token-of-ana" (Some sample.guide_body) [])).2
              (sample.request "token-of-beto" None []) "doc-2") = 200
  /\ payload (GET 3000
               (POST 2000 "doc-2" sample.db
                  (sample.request "token-of-ana" (Some sample.guide_body) [])).2
               (sample.request "token-of-beto" None []) "doc-2")
     = payload (POST 2000 "doc-2" sample.db
                  (sample.request "token-of-ana" (Some sample.guide_body) [])).1.
Proof.
  assert (H201 : status (POST 2000 "doc-2" sample.db
                           (sample.request "token-of-ana" (Some sample.guide_body) [])).1
                 = 201) by (vm_compute; reflexivity).
  split; [exact H201|].
  rewrite (create_then_get sample.jwt_verify sample.env 2000 3000 "doc-2" sample.db
             _ (sample.request "token-of-beto" None []) sample.beto H201);
    [split; reflexivity|].
  vm_compute. reflexivity.
Defined.

(** Ana starts her checklist; Beto's get of it returns the answer Ana got. *)
Lemma update_then_get_run :
  status (PUT 5000 sample.db
            (sample.request "token-of-ana" (Some sample.start_patch) []) "doc-1").1 = 200
  /\ GET 6000
       (PUT 5000 sample.db
          (sample.request "token-of-ana" (Some sample.start_patch) []) "doc-1").2
       (sample.request "token-of-beto" None []) "doc-1"
     = (PUT 5000 sample.db
          (sample.request "token-of-ana" (Some sample.start_patch) []) "doc-1").1.
Proof.
  assert (H200 : status (PUT 5000 sample.db
                           (sample.request "token-of-ana" (Some sample.start_patch) [])
                           "doc-1").1 = 200) by (vm_compute; reflexivity).
  split; [exact H200|].
  apply (update_then_get sample.jwt_verify sample.env 5000 6000 sample.db _ _ "doc-1"
           sample.beto H200).
  vm_compute. reflexivity.
Defined.

(** The administrator deletes the checklist; Ana's get of it is answered 404. *)
Lemma delete_then_gone_run :
  status (DELETE 3000 sample.db (sample.request "token-of-admin" None []) "doc-1").1 = 200
  /\ GET 4000
       (DELETE 3000 sample.db (sample.request "token-of-admin" None []) "doc-1").2
       (sample.request "token-of-ana" None []) "doc-1"
     = NextResponse_json (ErrorBody "Document not found") (Some 404).
Proof.
  assert (H200 : status (DELETE 3000 sample.db (sample.request "token-of-admin" None [])
                           "doc-1").1 = 200) by (vm_compute; reflexivity).
  split; [exact H200|].
  destruct (delete_then_gone sample.jwt_verify sample.env 3000 sample.db _ "doc-1" H200)
    as [Hget _].
  apply (Hget 4000 _ sample.ana). vm_compute. reflexivity.
Defined.

(** Ana sends a patch that names only [authorId]: the answer is 200 and the
    store, the checklist's author and [updatedAt] included, is as it was. *)
Lemma update_without_fields_run :
  getAuthUser 5000 sample.db
    (sample.request "token-of-ana" (Some (JObject [("authorId", JNumber "2")])) [])
  = Some sample.ana
  /\ Prisma.documents sample.db !! "doc-1" = Some sample.checklist
  /\ status (PUT 5000 sample.db
               (sample.request "token-of-ana" (Some (JObject [("authorId", JNumber "2")])) [])
               "doc-1").1 = 200
  /\ (PUT 5000 sample.db
        (sample.request "token-of-ana" (Some (JObject [("authorId", JNumber "2")])) [])
        "doc-1").2 = sample.db.
Proof.
  assert (Hu : getAuthUser 5000 sample.db
                 (sample.request "token-of-ana" (Some (JObject [("authorId", JNumber "2")]))
                    [])
               = Some sample.ana) by (vm_compute; reflexivity).
  assert (Hd : Prisma.documents sample.db !! "doc-1" = Some sample.checklist)
    by (vm_compute; reflexivity).
  split; [exact Hu|]. split; [exact Hd|].
  destruct (update_without_fields sample.jwt_verify sample.env 5000 sample.db _ "doc-1"
              sample.ana [("authorId", JNumber "2")] sample.checklist Hu eq_refl
              eq_refl eq_refl eq_refl eq_refl Hd (or_introl eq_refl))
    as (H200 & _ & Hdb).
  split; [exact H200 | exact Hdb].
Defined.

(** Ana's listing is ordered by creation time. *)
Lemma listing_newest_first_run :
  getAuthUser 2000 sample.db (sample.request "token-of-ana" None []) = Some sample.ana
  /\ exists docs,
       payload (LIST 2000 sample.db (sample.request "token-of-ana" None []))
       = DocumentsBody docs
       /\ StronglySorted
            (fun a b =>
               Prisma.createdAt (Prisma.doc_row b) <= Prisma.createdAt (Prisma.doc_row a))
            docs.
Proof.
  assert (Hu : getAuthUser 2000 sample.db (sample.request "token-of-ana" None [])
               = Some sample.ana) by (vm_compute; reflexivity).
  split; [exact Hu|].
  exact (listing_newest_first sample.jwt_verify sample.env 2000 sample.db _ sample.ana Hu).
Defined.

(** Ana's listing of the documents to do holds the checklist. *)
Lemma listing_matching_run :
  getAuthUser 2000 sample.db (sample.request "token-of-ana" None [("status", "TODO")])
  = Some sample.ana
  /\ exists docs,
       payload (LIST 2000 sample.db (sample.request "token-of-ana" None [("status", "TODO")]))
       = DocumentsBody docs
       /\ Prisma.with_author sample.db "doc-1" sample.checklist ∈ docs.
Proof.
  assert (Hu : getAuthUser 2000 sample.db
                 (sample.request "token-of-ana" None [("status", "TODO")])
               = Some sample.ana) by (vm_compute; reflexivity).
  split; [exact Hu|].
  destruct (listing_holds_the_matching_documents sample.jwt_verify sample.env 2000
              sample.db _ sample.ana Hu) as (docs & Hdocs & Hin).
  exists docs. split; [exact Hdocs|].
  apply Hin. exists "doc-1", sample.checklist.
  split; [vm_compute; reflexivity|]. split; [reflexivity|].
  split.
  - intros s Hs _. injection Hs as <-. reflexivity.
  - intros p Hp. discriminate Hp.
Defined.

(** A listing whose status filter is empty holds the one stored document. *)
Lemma listing_without_repeats_run :
  getAuthUser 2000 sample.db (sample.request "token-of-ana" None [("status", "")])
  = Some sample.ana
  /\ exists docs,
       payload (LIST 2000 sample.db (sample.request "token-of-ana" None [("status", "")]))
       = DocumentsBody docs
       /\ length docs = 1%nat.
Proof.
  assert (Hu : getAuthUser 2000 sample.db
                 (sample.request "token-of-ana" None [("status", "")])
               = Some sample.ana) by (vm_compute; reflexivity).
  split; [exact Hu|].
  destruct (listing_without_repeats sample.jwt_verify sample.env 2000 sample.db _
              sample.ana Hu) as (docs & Hdocs & _ & Hlen).
  exists docs. split; [exact Hdocs|].
  rewrite Hlen; reflexivity.
Defined.

(** A create body with an empty title and a priority outside the enumeration
    is reported under [title] and under [priority]. *)
Lemma create_issues_run :
  exists errors,
    documents_route.createDocumentSchema
      (JObject [("title", JString ""); ("content", JString "c");
                ("priority", JString "ASAP")]) = inl errors
    /\ errors <> []
    /\ (exists e, e ∈ errors /\ Zod.path e = ["title"])
    /\ (exists e, e ∈ errors /\ Zod.path e = ["priority"])
    /\ ~ (exists e, e ∈ errors /\ Zod.path e = ["content"]).
Proof.
  eexists. split; [vm_compute; reflexivity|].
  match goal with
  | |- ?errs <> [] /\ _ =>
      destruct (create_issues_name_the_invalid_members
                  [("title", JString ""); ("content", JString "c");
                   ("priority", JString "ASAP")] errs)
        as (Hne & Ht & Hc & _ & Hp); [vm_compute; reflexivity|]
  end.
  split; [exact Hne|]. split; [|split].
  - apply Ht. intros (v & Hv & s & -> & Hl). injection Hv as <-. cbn in Hl. lia.
  - apply Hp. eexists. split; [reflexivity|].
    intros (s & Hs & Hin). injection Hs as <-.
    apply existsb_eqb_elem_of in Hin. vm_compute in Hin. discriminate.
  - intros H. apply Hc in H. apply H. eexists. split; [reflexivity|].
    eexists. split; [reflexivity|]. cbn. lia.
Defined.

(** A patch with an empty title is reported under [title] alone. *)
Lemma update_issues_run :
  exists errors,
    document_route.updateDocumentSchema sample.empty_title_patch = inl errors
    /\ errors <> []
    /\ (exists e, e ∈ errors /\ Zod.path e = ["title"])
    /\ ~ (exists e, e ∈ errors /\ Zod.path e = ["status"]).
Proof.
  eexists. split; [vm_compute; reflexivity|].
  match goal with
  | |- ?errs <> [] /\ _ =>
      destruct (update_issues_name_the_invalid_members [("title", JString "")] errs)
        as (Hne & Ht & _ & Hs & _); [vm_compute; reflexivity|]
  end.
  split; [exact Hne|]. split.
  - apply Ht. eexists. split; [reflexivity|].
    intros (s & Hs' & Hl). injection Hs' as <-. cbn in Hl. lia.
  - intros H. apply Hs in H as (v & Hv & _). discriminate Hv.
Defined.

(** The sample store keeps the foreign key and the enumerations, and still
    does after Ana's create. *)
Lemma handlers_keep_authored_run :
  authored sample.db
  /\ authored (POST 2000 "doc-2" sample.db
                 (sample.request "token-of-ana" (Some sample.guide_body) [])).2.
Proof.
  split; [exact sample_authored|].
  apply (handlers_keep_authored sample.jwt_verify sample.env 2000 "doc-2" "doc-1"
           sample.db _ sample_authored).
Defined.

Lemma handlers_keep_enumerated_run :
  enumerated sample.db
  /\ enumerated (PUT 5000 sample.db
                   (sample.request "token-of-ana" (Some sample.start_patch) []) "doc-1").2.
Proof.
  split; [exact sample_enumerated|].
  apply (handlers_keep_enumerated sample.jwt_verify sample.env 5000 "doc-2" "doc-1"
           sample.db _ sample_enumerated).
Defined.

(** Beto's get of the checklist returns it with Ana as its author. *)
Lemma reads_return_the_author_run :
  authored sample.db
  /\ payload (GET 2000 sample.db (sample.request "token-of-beto" None []) "doc-1")
     = DocumentBody (Prisma.with_author sample.db "doc-1" sample.checklist)
  /\ Prisma.doc_author (Prisma.with_author sample.db "doc-1" sample.checklist)
     = Some sample.ana.
Proof.
  assert (Hget : payload (GET 2000 sample.db (sample.request "token-of-beto" None [])
                            "doc-1")
                 = DocumentBody (Prisma.with_author sample.db "doc-1" sample.checklist))
    by (vm_compute; reflexivity).
  split; [exact sample_authored|]. split; [exact Hget|].
  destruct (reads_return_the_author sample.jwt_verify sample.env 2000 "doc-1" sample.db
              _ _ sample_authored (or_introl Hget)) as (row & Hrow & ->).
  vm_compute in Hrow. injection Hrow as <-. reflexivity.
Defined.

(** The document Ana creates names Ana as its author. *)
Lemma created_document_run :
  getAuthUser 2000 sample.db (sample.request "token-of-ana" (Some sample.guide_body) [])
  = Some sample.ana
  /\ status (POST 2000 "doc-2" sample.db
               (sample.request "token-of-ana" (Some sample.guide_body) [])).1 = 201
  /\ exists doc,
       payload (POST 2000 "doc-2" sample.db
                  (sample.request "token-of-ana" (Some sample.guide_body) [])).1
       = DocumentBody doc
       /\ Prisma.doc_author doc = Some sample.ana.
Proof.
  assert (Hu : getAuthUser 2000 sample.db
                 (sample.request "token-of-ana" (Some sample.guide_body) [])
               = Some sample.ana) by (vm_compute; reflexivity).
  assert (H201 : status (POST 2000 "doc-2" sample.db
                           (sample.request "token-of-ana" (Some sample.guide_body) [])).1
                 = 201) by (vm_compute; reflexivity).
  split; [exact Hu|]. split; [exact H201|].
  destruct (created_document_names_the_requester sample.jwt_verify sample.env 2000 "doc-2"
              sample.db _ sample.ana Hu H201) as (doc & Hdoc & _ & _ & Ha).
  exists doc. split; [exact Hdoc | exact Ha].
Defined.

(** The Done button of a card in progress asks for DONE. *)
Lemma buttons_run :
  ("Done", "DONE") ∈ buttons "IN_PROGRESS"
  /\ "DONE" ∈ statuses
  /\ valid_patch_body (status_patch "DONE").
Proof.
  assert (Hin : ("Done", "DONE") ∈ buttons "IN_PROGRESS").
  { vm_compute. apply list_elem_of_further, list_elem_of_here. }
  split; [exact Hin|].
  destruct (buttons_ask_for_a_neighbouring_status "IN_PROGRESS" "Done" "DONE" Hin)
    as (_ & Ht & _ & _ & Hv).
  split; [exact Ht | exact Hv].
Defined.


End further_runs.
